(** * Conrad Coach v3: trend, calorie and diagnosis core

    A shallow embedding of the analytic functions of
    [attached_assets/conrad_coach_v3_1770721379303.py] and the properties
    its specification states about them.

    Numbers.  Python [int] is [Z].  Python [float] quantities (weights,
    percentages, densities, adherence) are embedded as exact rationals [Q];
    a missing value ([None], [NaN], [pd.NA]) is [None] of an [option].
    Rounding ([round], [int]) is embedded with Python's rules: [round] is
    round-half-to-even, [int] truncates toward zero.

    The rational embedding decides a comparison as the program does except
    where a rounded value lands on the other side of a threshold.  The
    0.1 lb gate of the lean-gain ratio is such a place for weights logged to
    one decimal, so that function is embedded a second time in module
    [B64], on binary64 floats with the operations of IEEE 754. *)

From Stdlib Require Import ZArith QArith Qround Qabs Lia Lqa List Bool String Ascii.
From Stdlib Require Import DecimalString Sorted Permutation.
From Stdlib Require OrdersEx PrimFloat.
Import ListNotations.

Local Open Scope Z_scope.
Local Open Scope Q_scope.

(** ** Python numerics on rationals *)

Module Py.

(** [x < y] and [x <= y] on floats, as booleans. *)
Definition ltb (x y : Q) : bool := negb (Qle_bool y x).
Definition leb (x y : Q) : bool := Qle_bool x y.

(** [round(x)]: nearest integer, ties to the even neighbour. *)
Definition round (x : Q) : Z :=
  let f := Qfloor x in
  let r := x - inject_Z f in
  if ltb r (1 # 2) then f
  else if ltb (1 # 2) r then (f + 1)%Z
  else if Z.even f then f else (f + 1)%Z.

(** [int(x)] on a float: truncation toward zero. *)
Definition int (x : Q) : Z := Z.quot (Qnum x) (Zpos (Qden x)).

(** [sum(xs)] on a list of floats: left fold from [0]. *)
Definition sum (xs : list Q) : Q := fold_left Qplus xs 0.

(** [max(a, b)] and [min(a, b)]. *)
Definition max (a b : Q) : Q := if ltb a b then b else a.
Definition min (a b : Q) : Q := if ltb b a then b else a.

End Py.

(** ** Body-fat readings: [avg3] *)

(** [vals = [v for v in (a, b, c) if v is not None]] *)
Definition present (xs : list (option Q)) : list Q :=
  flat_map (fun v => match v with Some x => [x] | None => [] end) xs.

Definition avg3 (a b c : option Q) : option Q :=
  let vals := present [a; b; c] in
  if negb (Nat.eqb (List.length vals) 3) then None
  else Some (Py.sum vals / 3).

(** ** CalorieAdjustmentAdvisor: [suggest_calorie_adjustment] *)

Definition suggest_calorie_adjustment (wk_gain_lb : Q) : Z :=
  if Py.ltb wk_gain_lb 0.10 then 100%Z
  else if Py.leb 0.10 wk_gain_lb && Py.ltb wk_gain_lb 0.25 then 75%Z
  else if Py.leb 0.25 wk_gain_lb && Py.leb wk_gain_lb 0.50 then 0%Z
  else if Py.ltb 0.50 wk_gain_lb && Py.leb wk_gain_lb 0.75 then (-50)%Z
  else (-100)%Z.

(** ** Errors *)

(** A call either returns or raises.  The only exception the allocator can
    raise is the [KeyError] of a dictionary subscript; it carries the key. *)
Inductive result (A : Type) : Type :=
| Ok (a : A)
| KeyError (key : string).
Arguments Ok {A} a.
Arguments KeyError {A} key.

Definition bind {A B} (r : result A) (f : A -> result B) : result B :=
  match r with
  | Ok a => f a
  | KeyError k => KeyError k
  end.

Notation "x <- r ;; k" := (bind r (fun x => k))
  (at level 61, r at next level, right associativity).

(** ** Dictionaries and strings *)

(** [d[key]] on a dictionary with string keys. *)
Fixpoint lookup {V} (d : list (string * V)) (key : string) : option V :=
  match d with
  | [] => None
  | (k, v) :: d' => if String.eqb key k then Some v else lookup d' key
  end.

Definition getitem {V} (d : list (string * V)) (key : string) : result V :=
  match lookup d key with
  | Some v => Ok v
  | None => KeyError key
  end.

(** [x in (k1, k2, ...)] *)
Definition mem (x : string) (keys : list string) : bool :=
  existsb (String.eqb x) keys.

(** [s.endswith(suffix)] *)
Definition endswith (s suffix : string) : bool :=
  let n := String.length s in
  let m := String.length suffix in
  (m <=? n)%nat && String.eqb (substring (n - m) m s) suffix.

(** ** Baseline *)

Record CardioFuel := {
  threshold_min : Z;
  add_carbs_g : Z;
  preferred_source : string
}.

(** The fields of the baseline dictionary the analytic functions read. *)
Record Baseline := {
  adjust_priority : list string;
  cardio_fuel : CardioFuel
}.

Definition BASELINE : Baseline := {|
  adjust_priority :=
    ["mct_g"; "dextrin_g"; "oats_g"; "bananas"; "eggs"; "flax_g"; "whey_g";
     "yogurt_cups"]%string;
  cardio_fuel := {|
    threshold_min := 45;
    add_carbs_g := 25;
    preferred_source := "dextrin_g"
  |}
|}.

Definition KCAL_PER_UNIT : list (string * Q) :=
  [ ("oats_g", 4.0);
    ("dextrin_g", 3.87);
    ("whey_g", 3.76);
    ("mct_g", 7.0);
    ("flax_g", 3.24);
    ("bananas", 104.0);
    ("eggs", 77.5);
    ("yogurt_cups", 149.5) ]%string.

(** ** IngredientAllocator: [grams_for_kcal], [propose_adjustment] *)

Definition grams_for_kcal (item_key : string) (kcal : Z) : result Z :=
  k <- getitem KCAL_PER_UNIT item_key ;;
  if mem item_key ["bananas"; "eggs"; "yogurt_cups"]%string then
    Ok (Py.round (inject_Z kcal / k))
  else
    let grams := Py.round (inject_Z kcal / k) in
    if mem item_key ["mct_g"; "dextrin_g"]%string then
      Ok (Py.round (inject_Z grams / 5) * 5)%Z
    else
      Ok (Py.round (inject_Z grams / 10) * 10)%Z.

(** One plan entry: [(item, delta, achieved)]. *)
Definition Entry : Type := string * Z * Z.

Definition entry_item (e : Entry) : string := fst (fst e).
Definition entry_delta (e : Entry) : Z := snd (fst e).
Definition entry_achieved (e : Entry) : Z := snd e.

(** What one pass through the body of the [for] loop does. *)
Inductive Control :=
| Break
| Continue
| Append (delta achieved : Z).

Definition loop_body (item : string) (remaining : Z) : result Control :=
  if (Z.abs remaining <=? 25)%Z then Ok Break
  else if mem item ["whey_g"; "yogurt_cups"]%string
          && (Z.abs remaining <=? 150)%Z then Ok Continue
  else
    delta0 <- grams_for_kcal item remaining ;;
    let delta :=
      if (delta0 =? 0)%Z then
        let d := if endswith item "_g" then 10%Z else 1%Z in
        if (remaining <? 0)%Z then (d * -1)%Z else d
      else delta0 in
    k <- getitem KCAL_PER_UNIT item ;;
    let achieved := Py.round (inject_Z delta * k) in
    Ok (Append delta achieved).

(** The loop over [baseline["adjust_priority"]], threading the two
    variables it assigns, [remaining] and [plan]. *)
Fixpoint for_loop (items : list string) (remaining : Z) (plan : list Entry)
  : result (Z * list Entry) :=
  match items with
  | [] => Ok (remaining, plan)
  | item :: rest =>
      c <- loop_body item remaining ;;
      match c with
      | Break => Ok (remaining, plan)
      | Continue => for_loop rest remaining plan
      | Append delta achieved =>
          for_loop rest (remaining - achieved)%Z
                   (plan ++ [(item, delta, achieved)])
      end
  end.

Definition propose_adjustment (kcal_change : Z) (baseline : Baseline)
  : result (list Entry) :=
  if (kcal_change =? 0)%Z then Ok []
  else
    st <- for_loop (adjust_priority baseline) kcal_change [] ;;
    Ok (snd st).

(** ** CardioFuelGuard: [cardio_fuel_note] *)

(** [str(n)] for an integer. *)
Definition str (n : Z) : string := NilZero.string_of_int (Z.to_int n).

(** The local [oats_g]: [int(round((add/0.67)/10)*10)]. *)
Definition oats_g_of (add : Z) : Z :=
  (Py.round ((inject_Z add / 0.67) / 10) * 10)%Z.

(** [cardio_min] is a float or missing ([None] and [NaN] both return
    [None] at the first test). *)
Definition cardio_fuel_note (cardio_min : option Q) (baseline : Baseline)
  : option string :=
  match cardio_min with
  | None => None
  | Some x =>
      let cf := cardio_fuel baseline in
      let cm := Py.int x in
      if (threshold_min cf <? cm)%Z then
        let add := add_carbs_g cf in
        let src := preferred_source cf in
        if String.eqb src "oats_g" then
          let oats_g := oats_g_of add in
          Some ("Cardio " ++ str cm ++ "min > " ++ str (threshold_min cf)
                ++ " → add ~" ++ str add ++ "g carbs: +" ++ str oats_g
                ++ "g oats (or +" ++ str add ++ "g dextrin).")%string
        else
          Some ("Cardio " ++ str cm ++ "min > " ++ str (threshold_min cf)
                ++ " → add +" ++ str add ++ "g carbs: +" ++ str add
                ++ "g dextrin.")%string
      else None
  end.

(** ** Records and frames *)

(** The fields of [DailyEntry] the analytic functions read.  A frame cell
    can be missing, so every column the code guards with [fillna], [dropna]
    or [notna] is an [option]; the morning weight is required. *)
Record DailyEntry := {
  day : string;
  morning_weight_lb : Q;
  waist_in : option Q;
  bf_morning_pct : option Q;
  cardio_min : option Z;
  deload_week : option bool;
  performance_note : option string;
  adherence_0to1 : option Q
}.

(** A row of the frame [df_entries] returns: the entry and its two derived
    columns.  Frames are built from [asdict(DailyEntry)], so every column
    exists and the tests ["col" in e.columns] are true. *)
Record Row := {
  entry : DailyEntry;
  lean_mass_lb : option Q;
  fat_mass_lb : option Q
}.

Definition Frame : Type := list Row.

Definition derive (r : DailyEntry) : Row := {|
  entry := r;
  lean_mass_lb :=
    match bf_morning_pct r with
    | Some bf => Some (morning_weight_lb r * (1 - bf / 100.0))
    | None => None
    end;
  fat_mass_lb :=
    match bf_morning_pct r with
    | Some bf => Some (morning_weight_lb r * (bf / 100.0))
    | None => None
    end
|}.

(** [sort_values("day")]: days are zero-padded [YYYY-MM-DD], for which the
    order of the strings is the order of the dates; equal days keep their
    order. *)
Fixpoint insert_by_day (r : DailyEntry) (rs : list DailyEntry) : list DailyEntry :=
  match rs with
  | [] => [r]
  | r' :: rs' =>
      if String.ltb (day r) (day r') then r :: rs
      else r' :: insert_by_day r rs'
  end.

Definition sort_values_day (rs : list DailyEntry) : list DailyEntry :=
  fold_left (fun acc r => insert_by_day r acc) rs [].

Definition df_entries (entries : list DailyEntry) : Frame :=
  map derive (sort_values_day entries).

(** ** [log_entry]: storing a day *)

(** What [log_entry] does to the stored entries once the answers are read:
    the entries of the same day are dropped, the new entry is appended and
    the list is sorted by day ([list.sort] is stable, as the insertion
    above). *)
Definition log_entry_store (entries : list DailyEntry) (entry : DailyEntry)
  : list DailyEntry :=
  sort_values_day
    (filter (fun e => negb (String.eqb (day e) (day entry))) entries
     ++ [entry]).

(** *** Frame and series operations *)

(** [x.tail(n)] *)
Definition tail {A} (n : nat) (l : list A) : list A :=
  skipn (List.length l - n) l.

(** [s.iloc[-k]], for [1 <= k <= len(s)]. *)
Definition iloc_back {A} (s : list A) (k : nat) (d : A) : A :=
  nth (List.length s - k) s d.

(** [s.mean()] of the values present in a non-empty column: missing values
    are left out of sum and count. *)
Definition mean (xs : list Q) : Q :=
  Py.sum xs / inject_Z (Z.of_nat (List.length xs)).

(** [s.rolling(window, min_periods=min_periods).mean()]: at position [i]
    the window is the [window] latest values up to [i] (fewer at the
    start); the result is missing when fewer than [min_periods] of them
    are present.  Each window is averaged exactly here; pandas carries a
    running sum along the series, so its floats agree with these means up
    to their last digits only. *)
Definition rolling_mean (window min_periods : nat) (s : list (option Q))
  : list (option Q) :=
  map (fun i =>
         let w := skipn (i + 1 - window) (firstn (i + 1) s) in
         let vals := present w in
         if (List.length vals <? min_periods)%nat then None
         else Some (mean vals))
      (seq 0 (List.length s)).

(** ** TrendAggregator: [weekly_delta_7day_avg] *)

Definition weekly_delta_7day_avg (series : list (option Q)) : option Q :=
  if (List.length series <? 14)%nat then None
  else
    let w7 := rolling_mean 7 7 series in
    match iloc_back w7 1 None, iloc_back w7 8 None with
    | Some last, Some prev => Some (last - prev)
    | _, _ => None
    end.

(** ** BodyCompositionEstimator: [lean_gain_ratio_14d] *)

(** [dropna(subset=["lean_mass_lb"])], keeping with each surviving row the
    value of the column. *)
Definition dropna_lean_mass (e : Frame) : list (Row * Q) :=
  flat_map (fun r => match lean_mass_lb r with
                     | Some lm => [(r, lm)]
                     | None => []
                     end) e.

Definition lean_gain_ratio_14d (e : Frame) : option Q :=
  let recent := dropna_lean_mass (tail 14 e) in
  match recent with
  | first :: _ :: _ =>
      let final := last recent first in
      let w0 := morning_weight_lb (entry (fst first)) in
      let w1 := morning_weight_lb (entry (fst final)) in
      let lm0 := snd first in
      let lm1 := snd final in
      let dw := w1 - w0 in
      let dlm := lm1 - lm0 in
      if Py.ltb (Qabs dw) 0.1 then None
      else Some (dlm / dw)
  | _ => None
  end.

(** ** Binary64 embedding of [lean_gain_ratio_14d] *)

Module B64.

Import PrimFloat.
Local Open Scope float_scope.
Set Warnings "-inexact-float".

(** The columns the ratio reads, as binary64 floats. *)
Record DailyEntry := {
  day : string;
  morning_weight_lb : float;
  bf_morning_pct : option float
}.

Record Row := {
  entry : DailyEntry;
  lean_mass_lb : option float;
  fat_mass_lb : option float
}.

Definition Frame : Type := list Row.

(** [pd.notna(x)]: neither [None]/[pd.NA] nor [NaN]. *)
Definition notna (x : option float) : bool :=
  match x with
  | Some v => negb (is_nan v)
  | None => false
  end.

(** The two lambdas of [df_entries]. *)
Definition derive (r : DailyEntry) : Row := {|
  entry := r;
  lean_mass_lb :=
    if notna (bf_morning_pct r) then
      match bf_morning_pct r with
      | Some bf => Some (morning_weight_lb r * (1 - bf / 100.0))
      | None => None
      end
    else None;
  fat_mass_lb :=
    if notna (bf_morning_pct r) then
      match bf_morning_pct r with
      | Some bf => Some (morning_weight_lb r * (bf / 100.0))
      | None => None
      end
    else None
|}.

(** [dropna(subset=["lean_mass_lb"])], keeping with each surviving row the
    value of the column. *)
Definition dropna_lean_mass (e : Frame) : list (Row * float) :=
  flat_map (fun r => match lean_mass_lb r with
                     | Some lm => if is_nan lm then [] else [(r, lm)]
                     | None => []
                     end) e.

Definition lean_gain_ratio_14d (e : Frame) : option float :=
  let recent := dropna_lean_mass (tail 14 e) in
  match recent with
  | first :: _ :: _ =>
      let final := last recent first in
      let w0 := morning_weight_lb (entry (fst first)) in
      let w1 := morning_weight_lb (entry (fst final)) in
      let lm0 := snd first in
      let lm1 := snd final in
      let dw := w1 - w0 in
      let dlm := lm1 - lm0 in
      if abs dw <? 0.1 then None
      else Some (dlm / dw)
  | _ => None
  end.

(** *** Logged numbers *)

(** A positive integer as a float; exact below 2^53. *)
Fixpoint of_pos (p : positive) : float :=
  match p with
  | xH => 1
  | xO p' => 2 * of_pos p'
  | xI p' => 2 * of_pos p' + 1
  end.

(** [float(s)] for a decimal numeral [s] of less than 16 digits, given as
    the fraction it denotes: numerator and denominator are exact floats and
    their quotient is rounded once, to the float nearest to the decimal. *)
Definition of_decimal (q : Q) : float :=
  match Qnum q with
  | Z0 => 0
  | Zpos n => of_pos n / of_pos (Qden q)
  | Zneg n => - (of_pos n / of_pos (Qden q))
  end.

(** The frame of a log given as (weight, body fat) per day. *)
Definition frame_of (log : list (Q * option Q)) : Frame :=
  map (fun c => derive {| day := EmptyString;
                          morning_weight_lb := of_decimal (fst c);
                          bf_morning_pct := option_map of_decimal (snd c) |})
      log.

Definition has_lean_mass (r : Row) : bool := notna (lean_mass_lb r).

Definition lean_points (e : Frame) : list Row :=
  filter has_lean_mass (tail 14 e).

Definition weight_of (r : Row) : float := morning_weight_lb (entry r).

End B64.

(** The rule of the lean-gain ratio in the words of the specification, on the
    numbers as they were logged, (weight, body fat) per day: the latest 14
    days or fewer, those with a body fat; no value below 2 points or when
    the weight changed by less than 0.1 lb; else the change in lean mass
    over the change in weight. *)
Definition spec_lean_gain_ratio (log : list (Q * option Q)) : option Q :=
  let points :=
    flat_map (fun c => match snd c with
                       | Some bf => [(fst c, fst c * (1 - bf / 100))]
                       | None => []
                       end) (tail 14 log) in
  match points with
  | first :: _ :: _ =>
      let final := last points first in
      let dw := fst final - fst first in
      if Qlt_le_dec (Qabs dw) 0.1 then None
      else Some ((snd final - snd first) / dw)
  | _ => None
  end.

(** Two days logged 0.1 lb apart, 0.05 lb apart, and 0.1 lb apart one step
    further up the scale. *)
Definition tenth_apart : list (Q * option Q) :=
  [(180.0, Some 20.0); (180.1, Some 19.0)].

Definition twentieth_apart : list (Q * option Q) :=
  [(180.0, Some 20.0); (180.05, Some 19.0)].

Definition tenth_apart_higher : list (Q * option Q) :=
  [(180.2, Some 20.0); (180.3, Some 19.0)].

(** ** Diagnoser: [diagnose] *)

(** [s.lower()] on the ASCII letters. *)
Definition lower_ascii (c : ascii) : ascii :=
  let n := nat_of_ascii c in
  if ((65 <=? n) && (n <=? 90))%nat then ascii_of_nat (n + 32) else c.

Fixpoint lower (s : string) : string :=
  match s with
  | EmptyString => EmptyString
  | String c s' => String (lower_ascii c) (lower s')
  end.

(** [needle in hay] on strings. *)
Fixpoint contains (needle hay : string) : bool :=
  if prefix needle hay then true
  else match hay with
       | EmptyString => false
       | String _ hay' => contains needle hay'
       end.

(** [s.fillna(d)] on one cell. *)
Definition fillna {A} (d : A) (x : option A) : A :=
  match x with Some v => v | None => d end.

(** [s.dropna()] on a column of strings. *)
Definition dropna_str (xs : list (option string)) : list string :=
  flat_map (fun v => match v with Some x => [x] | None => [] end) xs.

(** [s.dropna().iloc[-1] - s.dropna().iloc[0]] when at least two values
    are present. *)
Definition change_over (col : list (option Q)) : option Q :=
  let vals := present col in
  if (2 <=? List.length vals)%nat then Some (last vals 0 - hd 0 vals)
  else None.

Definition bad_words : list string :=
  ["flat"; "tired"; "stalled"; "no progress"; "weak"]%string.

Definition weights (e : Frame) : list (option Q) :=
  map (fun r => Some (morning_weight_lb (entry r))) e.

Definition diagnose (e : Frame) : string :=
  if (List.length e <? 14)%nat then
    "Need at least ~14 days to diagnose trend vs noise."%string
  else
  match weekly_delta_7day_avg (weights e) with
  | None => "Need enough data for 7-day rolling averages."%string
  | Some wk_gain =>
    let recent := tail 14 e in
    let avg_adh :=
      mean (map (fun r => fillna 1.0 (adherence_0to1 (entry r))) recent) in
    let deload :=
      existsb (fun r => fillna false (deload_week (entry r))) recent in
    let waist_change := change_over (map (fun r => waist_in (entry r)) recent) in
    let lean_change := change_over (map lean_mass_lb recent) in
    let perf_notes :=
      map lower (dropna_str (map (fun r => performance_note (entry r)) recent)) in
    let perf_flat :=
      (2 <=? List.length
               (filter (fun n => existsb (fun b => contains b n) bad_words)
                       perf_notes))%nat in
    if Py.ltb avg_adh 0.9 then
      "Likely adherence/data-quality issue first (plan not executed consistently)."%string
    else if deload then
      if Py.ltb wk_gain 0.10 then
        "Deload flagged. Weight not moving is acceptable; hold diet steady and reassess after deload."%string
      else
        "Deload flagged. Avoid training conclusions; reassess next week."%string
    else if Py.ltb 0.75 wk_gain
            && match waist_change with
               | Some wc => Py.ltb 0.25 wc
               | None => false
               end then
      "Likely diet overshoot (gain too fast + waist rising). Reduce calories slightly."%string
    else if Py.ltb wk_gain 0.10 && perf_flat then
      "Likely diet/recovery undershoot (not gaining + performance flat). Add calories or reduce cardio/stress."%string
    else if Py.leb 0.25 wk_gain && Py.leb wk_gain 0.50 && perf_flat then
      "Diet likely adequate (weight trending right). Look at training variables and sleep."%string
    else if match lean_change with
            | Some lc => Py.ltb 0.25 wk_gain && Py.ltb lc 0
            | None => false
            end then
      "Weight up but estimated lean mass down (likely BIA noise or glycogen/hydration swing). Check hydration consistency + use 7-day averages."%string
    else
      "No clear red flags. Keep running the plan; watch 7-day averages."%string
  end.

(** ** [report]: the values it computes before printing *)

Record ReportLocals := {
  r_wk_gain : Q;
  r_kcal_adj : Z;
  r_adj_plan : list Entry;
  r_diag : string;
  r_ratio : option Q;
  r_ratio_disp : option Q;
  r_cardio_notes : list (string * string)
}.

(** [None] stands for the two early returns after a "not enough" message;
    a [KeyError] of the allocator propagates. *)
Definition report (entries : list DailyEntry) (baseline : Baseline)
  : result (option ReportLocals) :=
  let e := df_entries entries in
  if (List.length e <? 7)%nat then Ok None
  else
  match weekly_delta_7day_avg (weights e) with
  | None => Ok None
  | Some wk_gain =>
    let kcal_adj := suggest_calorie_adjustment wk_gain in
    adj_plan <- propose_adjustment kcal_adj baseline ;;
    let diag := diagnose e in
    let ratio := lean_gain_ratio_14d e in
    let ratio_disp :=
      match ratio with
      | Some r => Some (Py.max (-1.0) (Py.min 2.0 r))
      | None => None
      end in
    let cf := cardio_fuel baseline in
    let last7 := tail 7 e in
    let over :=
      filter (fun r => (threshold_min cf <? fillna 0%Z (cardio_min (entry r)))%Z)
             last7 in
    let notes :=
      flat_map (fun r =>
                  match cardio_fuel_note
                          (option_map inject_Z (cardio_min (entry r))) baseline with
                  | Some note => [(day (entry r), note)]
                  | None => []
                  end) over in
    Ok (Some {| r_wk_gain := wk_gain; r_kcal_adj := kcal_adj;
                r_adj_plan := adj_plan; r_diag := diag; r_ratio := ratio;
                r_ratio_disp := ratio_disp; r_cardio_notes := notes |})
  end.

(** ** Vocabulary of the statements *)

(** The protein-bearing levers the allocator guards. *)
Definition protein_bearing (item : string) : bool :=
  mem item ["whey_g"; "yogurt_cups"]%string.

(** Kilocalories achieved by a (prefix of a) plan.  The loop starts
    [remaining] at [kcal_change] and subtracts each appended entry's
    [achieved], so when an entry is appended after the entries [pre] the
    running [remaining] is [kcal_change - achieved_sum pre]. *)
Definition achieved_sum (plan : list Entry) : Z :=
  fold_right Z.add 0%Z (map entry_achieved plan).

(** The guard seen on the finished plan: each protein-bearing entry was
    appended while more than 150 kcal remained. *)
Definition guarded (kc : Z) (plan : list Entry) : Prop :=
  forall pre e post,
    plan = pre ++ e :: post ->
    protein_bearing (entry_item e) = true ->
    (150 < Z.abs (kc - achieved_sum pre))%Z.

Definition with_priority (items : list string) : Baseline := {|
  adjust_priority := items;
  cardio_fuel := cardio_fuel BASELINE
|}.

Definition with_source (src : string) : Baseline := {|
  adjust_priority := adjust_priority BASELINE;
  cardio_fuel := {| threshold_min := 45; add_carbs_g := 25;
                    preferred_source := src |}
|}.

(** The mean of the [k] values of a series ending on day [i]. *)
Definition trailing_mean (k : nat) (xs : list Q) (i : nat) : Q :=
  mean (firstn k (skipn (i + 1 - k) xs)).

(** The records the lean-gain ratio is taken over: the most recent 14 (or
    fewer), restricted to those with a defined lean mass. *)
Definition has_lean_mass (r : Row) : bool :=
  match lean_mass_lb r with Some _ => true | None => false end.

Definition lean_points (e : Frame) : list Row :=
  filter has_lean_mass (tail 14 e).

Definition weight_of (r : Row) : Q := morning_weight_lb (entry r).

(** ** Sample records *)

Definition sample_entry (d : string) (w : Q) (bf adh : option Q)
  (cm : option Z) : DailyEntry := {|
  day := d;
  morning_weight_lb := w;
  waist_in := None;
  bf_morning_pct := bf;
  cardio_min := cm;
  deload_week := None;
  performance_note := None;
  adherence_0to1 := adh
|}.

Definition january : list string :=
  ["2026-01-01"; "2026-01-02"; "2026-01-03"; "2026-01-04"; "2026-01-05";
   "2026-01-06"; "2026-01-07"; "2026-01-08"; "2026-01-09"; "2026-01-10";
   "2026-01-11"; "2026-01-12"; "2026-01-13"; "2026-01-14"]%string.

(** One entry per day of [january] from [(weight, body fat, adherence)]. *)
Definition log_of (cells : list (Q * option Q * option Q)) : list DailyEntry :=
  map (fun dc => sample_entry (fst dc) (fst (fst (snd dc)))
                   (snd (fst (snd dc))) (snd (snd dc)) None)
      (combine january cells).

(** A fortnight weighed daily with body fat read on the first and the last
    day: 180 lb at 20 %, then 181 lb at 19 %. *)
Definition lean_log : list DailyEntry :=
  log_of ([(180.0, Some 20.0, None)]
          ++ repeat (180.5, None, None) 12
          ++ [(181.0, Some 19.0, None)]).

Definition lean_first : Row :=
  derive (sample_entry "2026-01-01" 180.0 (Some 20.0) None None).

Definition lean_last : Row :=
  derive (sample_entry "2026-01-14" 181.0 (Some 19.0) None None).

(** A fortnight gaining 0.3 lb per week with adherence 0.85 every day. *)
Definition slack_log : list DailyEntry :=
  log_of (repeat (180.0, None, Some 0.85) 7
          ++ repeat (180.3, None, Some 0.85) 7).

(** A flat fortnight at full adherence with a deload flag on its tenth
    day. *)
Definition flag_deload (r : DailyEntry) : DailyEntry := {|
  day := day r;
  morning_weight_lb := morning_weight_lb r;
  waist_in := waist_in r;
  bf_morning_pct := bf_morning_pct r;
  cardio_min := cardio_min r;
  deload_week := Some true;
  performance_note := performance_note r;
  adherence_0to1 := adherence_0to1 r
|}.

Definition deload_day : DailyEntry :=
  flag_deload (sample_entry "2026-01-10" 180.0 None None None).

Definition deload_log : list DailyEntry :=
  log_entry_store (log_of (repeat (180.0, None, None) 14)) deload_day.

(** A fortnight with 50 minutes of cardio on its last day and 45 on the day
    before. *)
Definition cardio_log : list DailyEntry :=
  log_entry_store
    (log_entry_store (log_of (repeat (180.0, None, None) 14))
       (sample_entry "2026-01-13" 180.0 None None (Some 45%Z)))
    (sample_entry "2026-01-14" 180.0 None None (Some 50%Z)).

(** The clamp [report] applies to its display copy of the ratio. *)
Definition clamp_display (ratio : Q) : Q := Py.max (-1.0) (Py.min 2.0 ratio).

Definition adherence_verdict : string :=
  "Likely adherence/data-quality issue first (plan not executed consistently).".

(** ** Vocabulary of the further properties *)

(** [l1] is [l2] with some elements left out, the order kept. *)
Inductive subseq {A : Type} : list A -> list A -> Prop :=
| subseq_nil : subseq [] []
| subseq_skip x l1 l2 : subseq l1 l2 -> subseq l1 (x :: l2)
| subseq_take x l1 l2 : subseq l1 l2 -> subseq (x :: l1) (x :: l2).

(** [P remaining entry] holds of every entry of a plan, [remaining] being
    the running value at the time the entry was appended. *)
Definition stepwise (P : Z -> Entry -> Prop) (kc : Z) (plan : list Entry)
  : Prop :=
  forall pre e post,
    plan = pre ++ e :: post -> P (kc - achieved_sum pre)%Z e.

(** The three rounding classes of [grams_for_kcal]. *)
Definition countable (item : string) : bool :=
  mem item ["bananas"; "eggs"; "yogurt_cups"]%string.

Definition fine_grained (item : string) : bool :=
  mem item ["mct_g"; "dextrin_g"]%string.

(** The rows of the last 7 days whose cardio minutes are present and above
    the threshold of the baseline. *)
Definition cardio_over (b : Baseline) (r : Row) : bool :=
  match cardio_min (entry r) with
  | Some m => (threshold_min (cardio_fuel b) <? m)%Z
  | None => false
  end.

(** Day order on entries: [a] is not after [b]. *)
Definition day_le (a b : DailyEntry) : Prop :=
  String.ltb (day b) (day a) = false.

(** * Properties *)

(** ** Numerics *)

Module PyFacts.

Lemma ltb_lt x y : Py.ltb x y = true <-> x < y.
Proof.
  unfold Py.ltb. rewrite negb_true_iff, <- not_true_iff_false, Qle_bool_iff.
  split; [apply Qnot_le_lt | apply Qlt_not_le].
Qed.

Lemma ltb_ge x y : Py.ltb x y = false <-> y <= x.
Proof.
  unfold Py.ltb. rewrite negb_false_iff. apply Qle_bool_iff.
Qed.

Lemma leb_le x y : Py.leb x y = true <-> x <= y.
Proof. apply Qle_bool_iff. Qed.

Lemma leb_gt x y : Py.leb x y = false <-> y < x.
Proof.
  unfold Py.leb. rewrite <- not_true_iff_false, Qle_bool_iff.
  split; [apply Qnot_le_lt | apply Qlt_not_le].
Qed.

End PyFacts.

(** Turns every float comparison in the context and goal into its
    proposition. *)
Ltac py_cmp :=
  repeat match goal with
  | H : Py.ltb _ _ = true |- _ => apply PyFacts.ltb_lt in H
  | H : Py.ltb _ _ = false |- _ => apply PyFacts.ltb_ge in H
  | H : Py.leb _ _ = true |- _ => apply PyFacts.leb_le in H
  | H : Py.leb _ _ = false |- _ => apply PyFacts.leb_gt in H
  end.

Ltac py_case :=
  match goal with
  | |- context [Py.ltb ?a ?b] => destruct (Py.ltb a b) eqn:?
  | |- context [Py.leb ?a ?b] => destruct (Py.leb a b) eqn:?
  end.

Lemma round_near (x : Q) :
  inject_Z (Py.round x) - x <= 1 # 2 /\ x - inject_Z (Py.round x) <= 1 # 2.
Proof.
  pose proof (Qfloor_le x) as Hlo. pose proof (Qlt_floor x) as Hhi.
  rewrite inject_Z_plus in Hhi. change (inject_Z 1) with 1 in Hhi.
  unfold Py.round.
  repeat py_case; py_cmp; try destruct (Z.even _);
    rewrite ?inject_Z_plus; change (inject_Z 1) with 1; lra.
Qed.

(** ** C1 *)

(** C1. [suggest_calorie_adjustment] is the step function of the table:
    +100 below 0.10, +75 on [0.10, 0.25), 0 on [0.25, 0.50], -50 on
    (0.50, 0.75], -100 above 0.75; at 0.09, 0.10, 0.25, 0.50, 0.51, 0.75
    and 0.76 it returns +100, +75, 0, 0, -50, -50 and -100. *)
Theorem suggest_calorie_adjustment_bands (d : Q) :
  (d < 0.10 -> suggest_calorie_adjustment d = 100%Z) /\
  (0.10 <= d -> d < 0.25 -> suggest_calorie_adjustment d = 75%Z) /\
  (0.25 <= d -> d <= 0.50 -> suggest_calorie_adjustment d = 0%Z) /\
  (0.50 < d -> d <= 0.75 -> suggest_calorie_adjustment d = (-50)%Z) /\
  (0.75 < d -> suggest_calorie_adjustment d = (-100)%Z) /\
  map suggest_calorie_adjustment [0.09; 0.10; 0.25; 0.50; 0.51; 0.75; 0.76]
  = [100; 75; 0; 0; -50; -50; -100]%Z.
Proof.
  unfold suggest_calorie_adjustment.
  repeat split; try reflexivity; intros;
    repeat (py_case; py_cmp; simpl; try reflexivity; try lra).
Qed.

Lemma suggest_calorie_adjustment_bands_witness :
  0.10 <= 0.2 /\ 0.2 < 0.25 /\ suggest_calorie_adjustment 0.2 = 75%Z.
Proof.
  assert (H1 : 0.10 <= 0.2) by (unfold Qle; simpl; lia).
  assert (H2 : 0.2 < 0.25) by reflexivity.
  split; [exact H1 | split; [exact H2 |]].
  exact (proj1 (proj2 (suggest_calorie_adjustment_bands 0.2)) H1 H2).
Defined.

(** ** C8 *)

(** C8. [avg3] returns the arithmetic mean of the three readings when all
    three are present and nothing when any one is missing: never a partial
    average.  (18.0, None, 19.0) gives nothing, (18.0, 18.5, 19.0) gives
    18.5. *)
Theorem avg3_all_or_nothing :
  (forall a b c : Q,
      exists m, avg3 (Some a) (Some b) (Some c) = Some m /\ m == (a + b + c) / 3) /\
  (forall b c, avg3 None b c = None) /\
  (forall a c, avg3 a None c = None) /\
  (forall a b, avg3 a b None = None) /\
  avg3 (Some 18.0) None (Some 19.0) = None /\
  (exists m, avg3 (Some 18.0) (Some 18.5) (Some 19.0) = Some m /\ m == 18.5).
Proof.
  split; [|split; [|split; [|split; [|split]]]].
  - intros a b c. eexists. split; [reflexivity|].
    unfold Py.sum; simpl. field.
  - intros [b|] [c|]; reflexivity.
  - intros [a|] [c|]; reflexivity.
  - intros [a|] [b|]; reflexivity.
  - reflexivity.
  - eexists. split; [reflexivity|]. reflexivity.
Qed.

(** ** The allocation loop *)

Lemma loop_body_break item rem :
  loop_body item rem = Ok Break <-> (Z.abs rem <= 25)%Z.
Proof.
  unfold loop_body. destruct (Z.abs rem <=? 25)%Z eqn:Hb.
  - apply Z.leb_le in Hb. tauto.
  - apply Z.leb_gt in Hb. split; [|lia].
    destruct (_ && _); [discriminate|].
    destruct (grams_for_kcal item rem); simpl; [|discriminate].
    destruct (getitem KCAL_PER_UNIT item); simpl; discriminate.
Qed.

Lemma loop_body_continue item rem :
  loop_body item rem = Ok Continue ->
  (25 < Z.abs rem <= 150)%Z /\ protein_bearing item = true.
Proof.
  unfold loop_body, protein_bearing.
  destruct (Z.abs rem <=? 25)%Z eqn:Hb; [discriminate|].
  apply Z.leb_gt in Hb.
  destruct (mem item _) eqn:Hm; simpl.
  - destruct (Z.abs rem <=? 150)%Z eqn:Hc.
    + apply Z.leb_le in Hc. intros _. split; [lia|reflexivity].
    + destruct (grams_for_kcal item rem); simpl; [|discriminate].
      destruct (getitem KCAL_PER_UNIT item); simpl; discriminate.
  - destruct (grams_for_kcal item rem); simpl; [|discriminate].
    destruct (getitem KCAL_PER_UNIT item); simpl; discriminate.
Qed.

Lemma loop_body_append item rem delta achieved :
  loop_body item rem = Ok (Append delta achieved) ->
  (25 < Z.abs rem)%Z /\
  (protein_bearing item = true -> 150 < Z.abs rem)%Z.
Proof.
  unfold loop_body, protein_bearing.
  destruct (Z.abs rem <=? 25)%Z eqn:Hb; [discriminate|].
  apply Z.leb_gt in Hb.
  destruct (mem item _) eqn:Hm; simpl.
  - destruct (Z.abs rem <=? 150)%Z eqn:Hc; [discriminate|].
    apply Z.leb_gt in Hc. intros _. split; [lia|intros _; lia].
  - intros _. split; [lia|discriminate].
Qed.

Lemma for_loop_done items rem plan :
  (Z.abs rem <= 25)%Z -> for_loop items rem plan = Ok (rem, plan).
Proof.
  intros Hb. destruct items as [|item rest]; [reflexivity|].
  simpl. apply (loop_body_break item) in Hb. rewrite Hb. reflexivity.
Qed.

(** Running the loop over [pre ++ post] is running it over [pre] and then
    over [post] from the state reached: a [break] in [pre] leaves a state
    in which [post] breaks at once. *)
Lemma for_loop_app pre post : forall rem plan,
  for_loop (pre ++ post) rem plan =
  (st <- for_loop pre rem plan ;; for_loop post (fst st) (snd st)).
Proof.
  induction pre as [|item pre IH]; intros rem plan; [reflexivity|].
  simpl. destruct (loop_body item rem) as [[| |delta achieved]|k] eqn:Hc; simpl.
  - symmetry. apply for_loop_done. now apply loop_body_break in Hc.
  - apply IH.
  - apply IH.
  - reflexivity.
Qed.

Lemma achieved_sum_snoc plan e :
  achieved_sum (plan ++ [e]) = (achieved_sum plan + entry_achieved e)%Z.
Proof.
  unfold achieved_sum. induction plan as [|x plan IH]; simpl in *; lia.
Qed.

Lemma snoc_split {A} (l pre post : list A) (x y : A) :
  l ++ [x] = pre ++ y :: post ->
  (post = [] /\ pre = l /\ y = x) \/
  (exists post', post = post' ++ [x] /\ l = pre ++ y :: post').
Proof.
  destruct post as [|p0 post0] using rev_ind; intros H;
    [|clear IHpost0; rename post0 into post'; rename p0 into z].
  - left. apply (app_inj_tail l pre x y) in H as [-> ->]. auto.
  - right. exists post'.
    change (pre ++ y :: post' ++ [z]) with (pre ++ (y :: post') ++ [z]) in H.
    rewrite app_assoc in H. apply app_inj_tail in H as [-> ->]. auto.
Qed.

Section LoopInvariant.

(** The requested change, fixed through a run of the loop. *)
Variable kc : Z.

Lemma for_loop_invariant items : forall rem plan rem' plan',
  for_loop items rem plan = Ok (rem', plan') ->
  rem = (kc - achieved_sum plan)%Z ->
  guarded kc plan ->
  rem' = (kc - achieved_sum plan')%Z /\ guarded kc plan'.
Proof.
  induction items as [|item rest IH]; intros rem plan rem' plan' Hrun Hrem Hg.
  - inversion Hrun; subst. auto.
  - simpl in Hrun.
    destruct (loop_body item rem) as [[| |delta achieved]|k] eqn:Hc;
      simpl in Hrun; try discriminate.
    + inversion Hrun; subst. auto.
    + eapply IH; eauto.
    + apply loop_body_append in Hc as [_ Hp].
      eapply IH; [exact Hrun| |].
      * rewrite achieved_sum_snoc. unfold entry_achieved; simpl. lia.
      * intros pre e post Hsplit He.
        apply snoc_split in Hsplit as [(_ & -> & ->)|(post' & _ & ->)].
        -- rewrite <- Hrem. apply Hp. exact He.
        -- eapply Hg; eauto.
Qed.

End LoopInvariant.

Lemma unknown_not_protein item :
  lookup KCAL_PER_UNIT item = None -> protein_bearing item = false.
Proof.
  intros Hl. unfold protein_bearing, mem. simpl.
  destruct (String.eqb item "whey_g") eqn:E1.
  - apply String.eqb_eq in E1. subst. discriminate.
  - destruct (String.eqb item "yogurt_cups") eqn:E2; [|reflexivity].
    apply String.eqb_eq in E2. subst. discriminate.
Qed.

(** ** C3 *)

(** C3. With kcal delta 0 [propose_adjustment] returns the empty plan; with
    a nonzero delta, no entry of the returned plan for [whey_g] or
    [yogurt_cups] was appended while the running |remaining| was at most
    150 kcal. *)
Theorem propose_adjustment_protein_guard :
  (forall b, propose_adjustment 0 b = Ok []) /\
  (forall b kc plan pre e post,
      kc <> 0%Z ->
      propose_adjustment kc b = Ok plan ->
      plan = pre ++ e :: post ->
      mem (entry_item e) ["whey_g"; "yogurt_cups"]%string = true ->
      (150 < Z.abs (kc - achieved_sum pre))%Z).
Proof.
  split; [reflexivity|].
  intros b kc plan pre e post Hkc Hrun Hsplit He.
  unfold propose_adjustment in Hrun.
  destruct (kc =? 0)%Z eqn:Hz; [apply Z.eqb_eq in Hz; contradiction|].
  destruct (for_loop (adjust_priority b) kc []) as [[rem' plan']|k] eqn:Hl;
    simpl in Hrun; [|discriminate].
  inversion Hrun; subst plan'.
  apply (for_loop_invariant kc) in Hl as [_ Hg].
  - eapply Hg; eauto.
  - unfold achieved_sum; simpl. lia.
  - intros [|x pre0] e0 post0 H0; discriminate.
Qed.

Lemma propose_adjustment_protein_guard_witness :
  propose_adjustment 300 (with_priority ["whey_g"; "eggs"]%string)
  = Ok [("whey_g"%string, 80%Z, 301%Z)] /\
  (150 < Z.abs (300 - achieved_sum []))%Z.
Proof.
  assert (Hrun : propose_adjustment 300 (with_priority ["whey_g"; "eggs"]%string)
                 = Ok [("whey_g"%string, 80%Z, 301%Z)])
    by (vm_compute; reflexivity).
  split; [exact Hrun|].
  refine (proj2 propose_adjustment_protein_guard
            (with_priority ["whey_g"; "eggs"]%string) 300%Z
            [("whey_g"%string, 80%Z, 301%Z)] [] ("whey_g"%string, 80%Z, 301%Z) []
            _ Hrun _ _).
  - discriminate.
  - reflexivity.
  - reflexivity.
Defined.

(** At 100 kcal the whey is passed over and the egg takes the change; at
    the locked baseline +75 kcal is 10 g of MCT oil. *)
Example propose_adjustment_skips_whey :
  propose_adjustment 100 (with_priority ["whey_g"; "eggs"]%string)
  = Ok [("eggs"%string, 1%Z, 78%Z)].
Proof. vm_compute. reflexivity. Qed.

Example propose_adjustment_baseline_75 :
  propose_adjustment 75 BASELINE = Ok [("mct_g"%string, 10%Z, 70%Z)].
Proof. vm_compute. reflexivity. Qed.

(** ** C4 *)

(** C4. When the priority list names an ingredient with no density entry
    and the loop reaches it (the items before it ran without error and left
    more than 25 kcal), [propose_adjustment] raises the [KeyError] of that
    ingredient; it returns no plan and does not go on to the items after
    it. *)
Theorem propose_adjustment_unknown_ingredient :
  forall b kc pre item post rem plan,
    adjust_priority b = pre ++ item :: post ->
    lookup KCAL_PER_UNIT item = None ->
    for_loop pre kc [] = Ok (rem, plan) ->
    (25 < Z.abs rem)%Z ->
    propose_adjustment kc b = KeyError item.
Proof.
  intros b kc pre item post rem plan Hprio Hmiss Hpre Hrem.
  unfold propose_adjustment.
  destruct (kc =? 0)%Z eqn:Hz.
  - apply Z.eqb_eq in Hz. subst kc.
    rewrite for_loop_done in Hpre by (simpl; lia).
    inversion Hpre; subst. simpl in Hrem. lia.
  - rewrite Hprio, for_loop_app, Hpre. simpl.
    unfold loop_body.
    destruct (Z.abs rem <=? 25)%Z eqn:Hb; [apply Z.leb_le in Hb; lia|].
    pose proof (unknown_not_protein item Hmiss) as Hp.
    unfold protein_bearing in Hp. rewrite Hp. simpl.
    unfold grams_for_kcal, getitem. rewrite Hmiss. reflexivity.
Qed.

Lemma propose_adjustment_unknown_ingredient_witness :
  propose_adjustment 100 (with_priority ["whey_g"; "taurine_g"; "eggs"]%string)
  = KeyError "taurine_g"%string.
Proof.
  refine (propose_adjustment_unknown_ingredient
            (with_priority ["whey_g"; "taurine_g"; "eggs"]%string) 100%Z
            ["whey_g"%string] "taurine_g"%string ["eggs"%string] 100%Z []
            _ _ _ _).
  - reflexivity.
  - reflexivity.
  - vm_compute. reflexivity.
  - simpl. lia.
Defined.

(** ** C10 *)

(** C10. A plan can hold quantity changes of both signs: with priority
    [bananas, eggs] and delta +30 the forced step of one banana achieves
    104 kcal, [remaining] turns to -74, and the next entry removes an
    egg. *)
Theorem propose_adjustment_sign_flip :
  exists b kc plan,
    kc <> 0%Z /\
    propose_adjustment kc b = Ok plan /\
    b = with_priority ["bananas"; "eggs"]%string /\
    kc = 30%Z /\
    plan = [("bananas"%string, 1%Z, 104%Z); ("eggs"%string, (-1)%Z, (-78)%Z)] /\
    grams_for_kcal "bananas" 30 = Ok 0%Z /\
    (Z.abs 30 < 104)%Z /\
    (exists e, In e plan /\ (0 < entry_delta e)%Z) /\
    (exists e, In e plan /\ (entry_delta e < 0)%Z).
Proof.
  exists (with_priority ["bananas"; "eggs"]%string), 30%Z,
    [("bananas"%string, 1%Z, 104%Z); ("eggs"%string, (-1)%Z, (-78)%Z)].
  repeat split.
  - discriminate.
  - exists ("bananas"%string, 1%Z, 104%Z). split; [left; reflexivity|reflexivity].
  - exists ("eggs"%string, (-1)%Z, (-78)%Z).
    split; [right; left; reflexivity|reflexivity].
Qed.

(** ** C9 *)

Lemma int_inject_Z (m : Z) : Py.int (inject_Z m) = m.
Proof. unfold Py.int; simpl. apply Z.quot_1_r. Qed.

(** On a float the test is made after [int] truncates it. *)
Lemma cardio_fuel_note_some_iff (x : Q) (b : Baseline) :
  cardio_fuel_note (Some x) b <> None <->
  (threshold_min (cardio_fuel b) < Py.int x)%Z.
Proof.
  unfold cardio_fuel_note.
  destruct (threshold_min (cardio_fuel b) <? Py.int x)%Z eqn:Ht.
  - apply Z.ltb_lt in Ht.
    destruct (String.eqb _ _); split; auto; discriminate.
  - apply Z.ltb_ge in Ht. split; [congruence|lia].
Qed.

Lemma oats_g_nearest_ten (add : Z) :
  (exists n, oats_g_of add = n * 10)%Z /\
  Qabs (inject_Z (oats_g_of add) - inject_Z add / 0.67) <= 5.
Proof.
  unfold oats_g_of. split; [eexists; reflexivity|].
  set (y := inject_Z add / 0.67).
  destruct (round_near (y / 10)) as [Hhi Hlo].
  rewrite inject_Z_mult. change (inject_Z 10) with 10.
  set (n := inject_Z (Py.round (y / 10))) in *.
  assert (Hy : y / 10 == y * (1 # 10)) by (field).
  rewrite Hy in Hhi, Hlo.
  apply Qabs_case; intros _; lra.
Qed.

(** C9. With threshold 45 a record gets an advisory exactly when its cardio
    minutes are present and above 45: 46 does, 45 does not, a missing value
    never does.  With [oats_g] as the preferred source and 25 g of carbs to
    add, the note advises 40 g of oats: 25 / 0.67 rounded to the nearest
    10 g. *)
Theorem cardio_fuel_note_threshold (r : DailyEntry) (b : Baseline) :
  threshold_min (cardio_fuel b) = 45%Z ->
  (cardio_fuel_note (option_map inject_Z (cardio_min r)) b <> None <->
   exists m, cardio_min r = Some m /\ (45 < m)%Z) /\
  (cardio_min r = Some 46%Z ->
   cardio_fuel_note (option_map inject_Z (cardio_min r)) b <> None) /\
  (cardio_min r = Some 45%Z ->
   cardio_fuel_note (option_map inject_Z (cardio_min r)) b = None) /\
  (cardio_min r = None ->
   cardio_fuel_note (option_map inject_Z (cardio_min r)) b = None) /\
  (preferred_source (cardio_fuel b) = "oats_g"%string ->
   add_carbs_g (cardio_fuel b) = 25%Z ->
   forall m, cardio_min r = Some m -> (45 < m)%Z ->
   cardio_fuel_note (option_map inject_Z (cardio_min r)) b =
   Some ("Cardio " ++ str m ++ "min > 45 → add ~25g carbs: +"
         ++ str (oats_g_of 25) ++ "g oats (or +25g dextrin).")%string) /\
  oats_g_of 25 = 40%Z /\
  Qabs (inject_Z (oats_g_of 25) - 25 / 0.67) <= 5.
Proof.
  intros Ht.
  assert (Hiff : cardio_fuel_note (option_map inject_Z (cardio_min r)) b <> None <->
                 exists m, cardio_min r = Some m /\ (45 < m)%Z).
  { destruct (cardio_min r) as [m|]; simpl.
    - split.
      + intros H. apply cardio_fuel_note_some_iff in H.
        rewrite int_inject_Z, Ht in H. exists m; auto.
      + intros (m' & E & H). apply cardio_fuel_note_some_iff.
        rewrite int_inject_Z, Ht. congruence.
    - split; [congruence|intros (m' & E & _); discriminate]. }
  split; [exact Hiff|].
  split; [intros E; apply Hiff; exists 46%Z; split; [exact E|lia]|].
  split.
  { intros E. destruct (cardio_fuel_note _ b) eqn:Hn; [|reflexivity].
    assert (Hs : Some s <> None) by discriminate.
    apply Hiff in Hs as (m & E' & Hm). rewrite E in E'. inversion E'. lia. }
  split; [intros ->; reflexivity|].
  split.
  { intros Hsrc Hadd m E Hm. rewrite E. simpl.
    unfold cardio_fuel_note. rewrite int_inject_Z, Ht, Hsrc, Hadd.
    apply Z.ltb_lt in Hm. rewrite Hm. reflexivity. }
  split; [reflexivity|].
  apply (proj2 (oats_g_nearest_ten 25)).
Qed.

Lemma cardio_fuel_note_threshold_witness :
  cardio_fuel_note (Some (inject_Z 46)) (with_source "oats_g") =
  Some "Cardio 46min > 45 → add ~25g carbs: +40g oats (or +25g dextrin)."%string.
Proof.
  exact (proj1 (proj2 (proj2 (proj2 (proj2
           (cardio_fuel_note_threshold
              (sample_entry "2026-01-01" 180.0 None None (Some 46%Z))
              (with_source "oats_g") eq_refl)))))
           eq_refl eq_refl 46%Z eq_refl eq_refl).
Defined.

(** ** Series *)

Lemma present_map_Some (xs : list Q) : present (map Some xs) = xs.
Proof.
  unfold present. induction xs as [|x xs IH]; simpl; [reflexivity|].
  now rewrite IH.
Qed.

Lemma length_rolling_mean w mp s :
  List.length (rolling_mean w mp s) = List.length s.
Proof. unfold rolling_mean. now rewrite length_map, length_seq. Qed.

Lemma rolling_mean_nth w mp s i :
  (i < List.length s)%nat ->
  nth i (rolling_mean w mp s) None =
  let vals := present (skipn (i + 1 - w) (firstn (i + 1) s)) in
  if (List.length vals <? mp)%nat then None else Some (mean vals).
Proof.
  intros Hi. unfold rolling_mean.
  set (f := fun i0 : nat => _).
  rewrite (nth_indep _ None (f 0%nat)) by (now rewrite length_map, length_seq).
  rewrite map_nth, seq_nth by exact Hi. reflexivity.
Qed.

(** On a series without gaps the rolling mean at day [i] is the trailing
    mean, from the first day that has [w] values behind it. *)
Lemma rolling_mean_full w (xs : list Q) i :
  (0 < w)%nat -> (w <= i + 1)%nat -> (i < List.length xs)%nat ->
  nth i (rolling_mean w w (map Some xs)) None = Some (trailing_mean w xs i).
Proof.
  intros Hw Hwi Hi.
  rewrite rolling_mean_nth by (now rewrite length_map).
  cbv zeta. rewrite firstn_map, skipn_map, present_map_Some.
  rewrite skipn_firstn_comm.
  replace (i + 1 - (i + 1 - w))%nat with w by lia.
  assert (Hlen : List.length (firstn w (skipn (i + 1 - w) xs)) = w).
  { rewrite length_firstn, length_skipn. lia. }
  rewrite Hlen, Nat.ltb_irrefl. reflexivity.
Qed.

(** ** C7 *)

(** C7. On fewer than 14 points [weekly_delta_7day_avg] returns no value.
    On a daily series of 14 or more points it returns the 7-day trailing
    mean at the latest day minus the 7-day trailing mean 7 days earlier;
    on exactly 14 points that is the mean of the second week minus the mean
    of the first. *)
Theorem weekly_delta_7day_avg_defined :
  (forall s : list (option Q),
      (List.length s < 14)%nat -> weekly_delta_7day_avg s = None) /\
  (forall xs : list Q,
      (14 <= List.length xs)%nat ->
      weekly_delta_7day_avg (map Some xs) =
      Some (trailing_mean 7 xs (List.length xs - 1)
            - trailing_mean 7 xs (List.length xs - 8))) /\
  (forall a1 a2 a3 a4 a5 a6 a7 b1 b2 b3 b4 b5 b6 b7 : Q,
      exists v,
        weekly_delta_7day_avg
          (map Some [a1; a2; a3; a4; a5; a6; a7; b1; b2; b3; b4; b5; b6; b7])
        = Some v /\
        v == (b1 + b2 + b3 + b4 + b5 + b6 + b7) / 7
             - (a1 + a2 + a3 + a4 + a5 + a6 + a7) / 7).
Proof.
  split; [|split].
  - intros s Hs. unfold weekly_delta_7day_avg.
    apply Nat.ltb_lt in Hs. now rewrite Hs.
  - intros xs Hn. unfold weekly_delta_7day_avg, iloc_back.
    rewrite length_map, length_rolling_mean, length_map.
    destruct (List.length xs <? 14)%nat eqn:Hlt;
      [apply Nat.ltb_lt in Hlt; lia|].
    rewrite !rolling_mean_full by lia. reflexivity.
  - intros. eexists. split; [reflexivity|].
    unfold mean, Py.sum; simpl. field.
Qed.

Lemma weekly_delta_7day_avg_defined_witness :
  weekly_delta_7day_avg
    (map Some [180; 180; 180; 180; 180; 180; 180; 181; 181; 181; 181; 181; 181; 181])
  = Some (trailing_mean 7
            [180; 180; 180; 180; 180; 180; 180; 181; 181; 181; 181; 181; 181; 181] 13
          - trailing_mean 7
            [180; 180; 180; 180; 180; 180; 180; 181; 181; 181; 181; 181; 181; 181] 6)
  /\ weekly_delta_7day_avg (map Some [180; 180; 180]) = None.
Proof.
  split.
  - refine (proj1 (proj2 weekly_delta_7day_avg_defined)
              [180; 180; 180; 180; 180; 180; 180; 181; 181; 181; 181; 181; 181; 181] _).
    simpl. lia.
  - refine (proj1 weekly_delta_7day_avg_defined (map Some [180; 180; 180]) _).
    simpl. lia.
Defined.

(** ** Lean-gain ratio *)

Lemma dropna_lean_mass_rows (l : Frame) :
  map fst (dropna_lean_mass l) = filter has_lean_mass l.
Proof.
  unfold dropna_lean_mass, has_lean_mass.
  induction l as [|r l IH]; simpl; [reflexivity|].
  destruct (lean_mass_lb r); simpl; now rewrite IH.
Qed.

Lemma dropna_lean_mass_value (l : Frame) (p : Row * Q) :
  In p (dropna_lean_mass l) -> lean_mass_lb (fst p) = Some (snd p).
Proof.
  unfold dropna_lean_mass. rewrite in_flat_map.
  intros (r & _ & Hp). destruct (lean_mass_lb r) eqn:E; simpl in Hp.
  - destruct Hp as [<-|[]]. exact E.
  - contradiction.
Qed.

Lemma last_of_map {A B} (f : A -> B) (l : list A) (d : A) :
  last (map f l) (f d) = f (last l d).
Proof.
  induction l as [|x [|y l] IH]; simpl in *; auto.
Qed.

Lemma last_cons_in {A} (x : A) (l : list A) (d : A) :
  In (last (x :: l) d) (x :: l).
Proof.
  revert x. induction l as [|y l IH]; intros x; [left; reflexivity|].
  right. apply (IH y).
Qed.

(** The value of [lean_gain_ratio_14d] in terms of the first and last of
    the points it is taken over. *)
Lemma lean_gain_ratio_14d_unfold (e : Frame) :
  match lean_points e with
  | r0 :: (_ :: _) as rest =>
      let r1 := last rest r0 in
      exists lm0 lm1,
        lean_mass_lb r0 = Some lm0 /\ lean_mass_lb r1 = Some lm1 /\
        lean_gain_ratio_14d e =
        if Py.ltb (Qabs (weight_of r1 - weight_of r0)) 0.1 then None
        else Some ((lm1 - lm0) / (weight_of r1 - weight_of r0))
  | _ => lean_gain_ratio_14d e = None
  end.
Proof.
  unfold lean_points, lean_gain_ratio_14d.
  rewrite <- dropna_lean_mass_rows.
  pose proof (dropna_lean_mass_value (tail 14 e)) as Hval.
  destruct (dropna_lean_mass (tail 14 e)) as [|p0 [|p1 rest]]; try reflexivity.
  cbn [map]. cbv zeta.
  set (pl := last (p0 :: p1 :: rest) p0).
  assert (Hl : last (fst p1 :: map fst rest) (fst p0) = fst pl).
  { change (fst p1 :: map fst rest) with (map fst (p1 :: rest)).
    rewrite last_of_map. reflexivity. }
  rewrite Hl.
  exists (snd p0), (snd pl). split; [|split].
  - apply Hval. left; reflexivity.
  - apply Hval. apply last_cons_in.
  - reflexivity.
Qed.

(** ** C5 *)

(** The rule as worded, with the boundary at a logged change of 0.1 lb, is
    not the program's: two days logged at 180.0 lb and 180.1 lb are 0.1 lb
    apart, so the rule gives a ratio, but the stored weights differ by
    0.09999999999999432 and [lean_gain_ratio_14d] returns no value. *)
Lemma lean_gain_ratio_14d_tenth_apart :
  spec_lean_gain_ratio tenth_apart <> None /\
  List.length (B64.lean_points (B64.frame_of tenth_apart)) = 2%nat /\
  B64.lean_gain_ratio_14d (B64.frame_of tenth_apart) = None.
Proof.
  split; [vm_compute; discriminate|].
  split; vm_compute; reflexivity.
Qed.

Module B64Facts.

Import PrimFloat.
Local Open Scope float_scope.
Set Warnings "-inexact-float".

Lemma dropna_rows_binary64 (l : B64.Frame) :
  map fst (B64.dropna_lean_mass l) = filter B64.has_lean_mass l.
Proof.
  unfold B64.dropna_lean_mass, B64.has_lean_mass, B64.notna.
  induction l as [|r l IH]; simpl; [reflexivity|].
  destruct (B64.lean_mass_lb r) as [lm|]; [|exact IH].
  destruct (is_nan lm); simpl; now rewrite IH.
Qed.

Lemma dropna_value_binary64 (l : B64.Frame) (p : B64.Row * float) :
  In p (B64.dropna_lean_mass l) -> B64.lean_mass_lb (fst p) = Some (snd p).
Proof.
  unfold B64.dropna_lean_mass. rewrite in_flat_map.
  intros (r & _ & Hp). destruct (B64.lean_mass_lb r) as [lm|] eqn:E;
    [|contradiction].
  destruct (is_nan lm); [contradiction|].
  destruct Hp as [<-|[]]. exact E.
Qed.

(** The value of the ratio in terms of the first and the last of the points
    it is taken over. *)
Lemma lean_gain_ratio_14d_unfold_binary64 (e : B64.Frame) :
  match B64.lean_points e with
  | r0 :: (_ :: _) as rest =>
      let r1 := last rest r0 in
      exists lm0 lm1,
        B64.lean_mass_lb r0 = Some lm0 /\ B64.lean_mass_lb r1 = Some lm1 /\
        B64.lean_gain_ratio_14d e =
        if abs (B64.weight_of r1 - B64.weight_of r0) <? 0.1 then None
        else Some ((lm1 - lm0) / (B64.weight_of r1 - B64.weight_of r0))
  | _ => B64.lean_gain_ratio_14d e = None
  end.
Proof.
  unfold B64.lean_points, B64.lean_gain_ratio_14d.
  rewrite <- dropna_rows_binary64.
  pose proof (dropna_value_binary64 (tail 14 e)) as Hval.
  destruct (B64.dropna_lean_mass (tail 14 e)) as [|p0 [|p1 rest]];
    try reflexivity.
  cbn [map]. cbv zeta.
  set (pl := last (p0 :: p1 :: rest) p0).
  assert (Hl : last (fst p1 :: map fst rest) (fst p0) = fst pl).
  { change (fst p1 :: map fst rest) with (map fst (p1 :: rest)).
    rewrite last_of_map. reflexivity. }
  rewrite Hl.
  exists (snd p0), (snd pl). split; [|split].
  - apply Hval. left; reflexivity.
  - apply Hval. apply last_cons_in.
  - reflexivity.
Qed.

(** C5. Over the most recent 14 records or fewer, restricted to those with
    a defined lean mass, [lean_gain_ratio_14d] returns no value when there
    are fewer than 2 such points or when the binary64 difference of the
    last and the first weight is below the binary64 0.1 in absolute value,
    and otherwise the binary64 quotient of the change in lean mass by that
    difference.  Logged 0.05 lb apart two days give no value; logged 0.1 lb
    apart they give none at 180.0 and 180.1 (stored difference
    0.09999999999999432) and a ratio at 180.2 and 180.3. *)
Theorem lean_gain_ratio_14d_binary64 :
  (forall e : B64.Frame,
      ((List.length (B64.lean_points e) < 2)%nat ->
       B64.lean_gain_ratio_14d e = None) /\
      (forall r0 r1 lm0 lm1,
          (2 <= List.length (B64.lean_points e))%nat ->
          hd_error (B64.lean_points e) = Some r0 ->
          last (B64.lean_points e) r0 = r1 ->
          B64.lean_mass_lb r0 = Some lm0 ->
          B64.lean_mass_lb r1 = Some lm1 ->
          ((abs (B64.weight_of r1 - B64.weight_of r0) <? 0.1) = true ->
           B64.lean_gain_ratio_14d e = None) /\
          ((abs (B64.weight_of r1 - B64.weight_of r0) <? 0.1) = false ->
           B64.lean_gain_ratio_14d e =
           Some ((lm1 - lm0) / (B64.weight_of r1 - B64.weight_of r0))))) /\
  B64.lean_gain_ratio_14d (B64.frame_of twentieth_apart) = None /\
  ((abs (B64.of_decimal 180.1%Q - B64.of_decimal 180.0%Q) <? 0.1) = true /\
   B64.lean_gain_ratio_14d (B64.frame_of tenth_apart) = None) /\
  ((abs (B64.of_decimal 180.3%Q - B64.of_decimal 180.2%Q) <? 0.1) = false /\
   B64.lean_gain_ratio_14d (B64.frame_of tenth_apart_higher) <> None).
Proof.
  split; [|repeat split; vm_compute; congruence].
  intros e. pose proof (lean_gain_ratio_14d_unfold_binary64 e) as H.
  destruct (B64.lean_points e) as [|p0 [|p1 rest]] eqn:Hpts.
  - split; [auto|]. simpl. intros; lia.
  - split; [auto|]. simpl. intros; lia.
  - split; [simpl; intros; lia|].
    intros r0 r1 lm0 lm1 _ Hhd Hlast H0 H1.
    simpl in Hhd. inversion Hhd; subst r0.
    cbv zeta in H. destruct H as (lm0' & lm1' & E0 & E1 & Hv).
    change (last (p0 :: p1 :: rest) p0) with (last (p1 :: rest) p0) in Hlast.
    rewrite Hlast in E1, Hv.
    rewrite H0 in E0. rewrite H1 in E1.
    inversion E0; inversion E1; subst lm0' lm1'.
    rewrite Hv. split; intros Hc; now rewrite Hc.
Qed.

Lemma lean_gain_ratio_14d_binary64_witness :
  B64.lean_gain_ratio_14d (B64.frame_of tenth_apart_higher) =
  Some ((B64.of_decimal 180.3%Q * (1 - B64.of_decimal 19.0%Q / 100.0)
         - B64.of_decimal 180.2%Q * (1 - B64.of_decimal 20.0%Q / 100.0))
        / (B64.of_decimal 180.3%Q - B64.of_decimal 180.2%Q)).
Proof.
  destruct (proj1 lean_gain_ratio_14d_binary64
              (B64.frame_of tenth_apart_higher)) as [_ H].
  pose (none := B64.derive (B64.Build_DailyEntry EmptyString 0 None)).
  assert (H2 : (2 <= List.length (B64.lean_points
                                    (B64.frame_of tenth_apart_higher)))%nat)
    by (vm_compute; lia).
  exact (proj2 (H (nth 0 (B64.frame_of tenth_apart_higher) none)
                  (nth 1 (B64.frame_of tenth_apart_higher) none)
                  (B64.of_decimal 180.2%Q * (1 - B64.of_decimal 20.0%Q / 100.0))
                  (B64.of_decimal 180.3%Q * (1 - B64.of_decimal 19.0%Q / 100.0))
                  H2 eq_refl eq_refl eq_refl eq_refl)
               eq_refl).
Defined.

End B64Facts.

(** ** C2 *)

(** C2. On 14 or more records with a defined weekly delta, a mean adherence
    below 0.9 over the last 14 days (a missing adherence counting as 1.0)
    makes [diagnose] return the adherence verdict, whatever the deload
    flags, weekly delta, waist, lean mass and performance notes are. *)
Theorem diagnose_adherence_first (e : Frame) (wk_gain : Q) :
  (14 <= List.length e)%nat ->
  weekly_delta_7day_avg (weights e) = Some wk_gain ->
  mean (map (fun r => match adherence_0to1 (entry r) with
                      | Some a => a
                      | None => 1.0
                      end) (tail 14 e)) < 0.9 ->
  diagnose e = adherence_verdict.
Proof.
  intros Hlen Hwk Hadh. unfold diagnose.
  destruct (List.length e <? 14)%nat eqn:Hlt;
    [apply Nat.ltb_lt in Hlt; lia|].
  rewrite Hwk. cbv zeta. unfold fillna.
  apply PyFacts.ltb_lt in Hadh. rewrite Hadh. reflexivity.
Qed.

Lemma diagnose_adherence_first_witness :
  diagnose (df_entries slack_log) = adherence_verdict.
Proof.
  refine (diagnose_adherence_first (df_entries slack_log)
            (trailing_mean 7 (map morning_weight_lb slack_log) 13
             - trailing_mean 7 (map morning_weight_lb slack_log) 6) _ _ _).
  - vm_compute. lia.
  - reflexivity.
  - reflexivity.
Defined.

(** ** C6 *)

(** C6. [lean_gain_ratio_14d] returns the raw quotient, also when it lies
    outside [-1, 2].  [report] keeps that value in [ratio] and clamps only
    the copy [ratio_disp] into [-1, 2]; on the sample log the ratio stays
    above 2 while the display copy is 2. *)
Theorem report_clamps_display_only :
  (forall e r,
      lean_gain_ratio_14d e = Some r ->
      exists r0 r1 rest lm0 lm1,
        lean_points e = r0 :: rest /\ r1 = last rest r0 /\
        lean_mass_lb r0 = Some lm0 /\ lean_mass_lb r1 = Some lm1 /\
        r = (lm1 - lm0) / (weight_of r1 - weight_of r0)) /\
  (forall entries b loc,
      report entries b = Ok (Some loc) ->
      r_ratio loc = lean_gain_ratio_14d (df_entries entries) /\
      r_ratio_disp loc = option_map clamp_display (r_ratio loc) /\
      (forall d, r_ratio_disp loc = Some d -> -1.0 <= d /\ d <= 2.0)) /\
  (exists loc r,
      report lean_log BASELINE = Ok (Some loc) /\
      lean_gain_ratio_14d (df_entries lean_log) = Some r /\
      r_ratio loc = Some r /\
      2.0 < r /\
      r_ratio_disp loc = Some 2.0).
Proof.
  split; [|split].
  - intros e r Hr. pose proof (lean_gain_ratio_14d_unfold e) as H.
    destruct (lean_points e) as [|r0 [|r1' rest]] eqn:Hpts;
      try congruence.
    cbv zeta in H. destruct H as (lm0 & lm1 & E0 & E1 & Hv).
    exists r0, (last (r1' :: rest) r0), (r1' :: rest), lm0, lm1.
    repeat split; auto.
    rewrite Hv in Hr. destruct (Py.ltb _ _); congruence.
  - intros entries b loc Hrep. unfold report in Hrep.
    destruct (List.length (df_entries entries) <? 7)%nat; [discriminate|].
    destruct (weekly_delta_7day_avg _) as [wk|]; [|discriminate].
    destruct (propose_adjustment _ b) as [plan|k]; simpl in Hrep;
      [|discriminate].
    inversion Hrep; subst loc; clear Hrep. cbn [r_ratio r_ratio_disp].
    split; [reflexivity|]. split.
    + destruct (lean_gain_ratio_14d _); reflexivity.
    + intros d Hd. destruct (lean_gain_ratio_14d _) as [r|]; [|discriminate].
      inversion Hd; subst d. unfold Py.max, Py.min.
      repeat py_case; py_cmp; split; lra.
  - eexists. eexists. split; [vm_compute; reflexivity|].
    cbn [r_ratio r_ratio_disp].
    split; [vm_compute; reflexivity|].
    split; [reflexivity|]. split; reflexivity.
Qed.

Lemma report_clamps_display_only_witness :
  exists loc,
    report lean_log BASELINE = Ok (Some loc) /\
    r_ratio loc = lean_gain_ratio_14d (df_entries lean_log) /\
    r_ratio_disp loc = option_map clamp_display (r_ratio loc).
Proof.
  destruct (report lean_log BASELINE) as [[loc|]|k] eqn:E.
  - exists loc. split; [reflexivity|].
    pose proof (proj1 (proj2 report_clamps_display_only)
                  lean_log BASELINE loc E) as H.
    split; [exact (proj1 H)|exact (proj1 (proj2 H))].
  - vm_compute in E. discriminate.
  - vm_compute in E. discriminate.
Defined.

(** * Further properties of the code *)

(** ** Rounding *)

Lemma round_nonneg (x : Q) : 0 <= x -> (0 <= Py.round x)%Z.
Proof.
  intros Hx. destruct (round_near x) as [_ Hlo].
  assert (H : inject_Z (-1) < inject_Z (Py.round x))
    by (change (inject_Z (-1)) with (-1); lra).
  rewrite <- Zlt_Qlt in H. lia.
Qed.

Lemma round_nonpos (x : Q) : x <= 0 -> (Py.round x <= 0)%Z.
Proof.
  intros Hx. destruct (round_near x) as [Hhi _].
  assert (H : inject_Z (Py.round x) < inject_Z 1)
    by (change (inject_Z 1) with 1; lra).
  rewrite <- Zlt_Qlt in H. lia.
Qed.

Lemma round_pos (x : Q) : 1 # 2 < x -> (0 < Py.round x)%Z.
Proof.
  intros Hx. destruct (round_near x) as [_ Hlo].
  assert (H : inject_Z 0 < inject_Z (Py.round x))
    by (change (inject_Z 0) with 0; lra).
  now rewrite <- Zlt_Qlt in H.
Qed.

Lemma round_neg (x : Q) : x < - (1 # 2) -> (Py.round x < 0)%Z.
Proof.
  intros Hx. destruct (round_near x) as [Hhi _].
  assert (H : inject_Z (Py.round x) < inject_Z 0)
    by (change (inject_Z 0) with 0; lra).
  now rewrite <- Zlt_Qlt in H.
Qed.

(** Rounding an integer to a grid of [n]: [int(round(g / n) * n)]. *)
Lemma round_grid (g : Z) (n : Z) :
  (0 < n)%Z ->
  Qabs (inject_Z (Py.round (inject_Z g / inject_Z n) * n) - inject_Z g)
  <= (1 # 2) * inject_Z n.
Proof.
  intros Hn.
  assert (Hq : 0 < inject_Z n)
    by (change 0 with (inject_Z 0); now rewrite <- Zlt_Qlt).
  destruct (round_near (inject_Z g / inject_Z n)) as [Hhi Hlo].
  rewrite inject_Z_mult.
  set (r := inject_Z (Py.round (inject_Z g / inject_Z n))) in *.
  assert (Hg : inject_Z g == (inject_Z g / inject_Z n) * inject_Z n)
    by (field; lra).
  set (y := inject_Z g / inject_Z n) in *.
  assert (E1 : r * inject_Z n - inject_Z g == (r - y) * inject_Z n)
    by (rewrite Hg at 1; ring).
  rewrite E1.
  apply Qabs_Qle_condition. split.
  - setoid_replace (- ((1 # 2) * inject_Z n)) with ((- (1 # 2)) * inject_Z n) by ring.
    apply Qmult_le_compat_r; lra.
  - apply Qmult_le_compat_r; lra.
Qed.

Lemma density_floor (item : string) (k : Q) :
  lookup KCAL_PER_UNIT item = Some k -> 3.24 <= k.
Proof.
  unfold KCAL_PER_UNIT. cbn [lookup].
  repeat (destruct (String.eqb item _);
          [intros H; inversion H; subst; unfold Qle; simpl; lia|]).
  discriminate.
Qed.

(** ** [grams_for_kcal] *)

Lemma div_nonneg (x k : Q) : 0 < k -> 0 <= x -> 0 <= x / k.
Proof.
  intros Hk Hx. apply Qle_shift_div_l; [exact Hk|]. lra.
Qed.

Lemma div_nonpos (x k : Q) : 0 < k -> x <= 0 -> x / k <= 0.
Proof.
  intros Hk Hx. apply Qle_shift_div_r; [exact Hk|]. lra.
Qed.

Lemma inject_Z_nonneg (z : Z) : (0 <= z)%Z -> 0 <= inject_Z z.
Proof. intros H. change 0 with (inject_Z 0). now rewrite <- Zle_Qle. Qed.

Lemma inject_Z_nonpos (z : Z) : (z <= 0)%Z -> inject_Z z <= 0.
Proof. intros H. change 0 with (inject_Z 0). now rewrite <- Zle_Qle. Qed.

(** X1. For an ingredient with a density [k] and a request of at most
    20000 kcal in size, [grams_for_kcal] returns a quantity on the
    ingredient's grid and close to the exact [kcal / k]: whole units within
    half a unit; multiples of 5 g within 3 g for MCT oil and dextrin;
    multiples of 10 g within 5.5 g for the other gram items. *)
Theorem grams_for_kcal_rounding (item : string) (kcal : Z) (k : Q) :
  (Z.abs kcal <= 20000)%Z ->
  lookup KCAL_PER_UNIT item = Some k ->
  exists g,
    grams_for_kcal item kcal = Ok g /\
    (countable item = true ->
     Qabs (inject_Z g - inject_Z kcal / k) <= 1 # 2) /\
    (countable item = false -> fine_grained item = true ->
     (exists n, g = n * 5)%Z /\
     Qabs (inject_Z g - inject_Z kcal / k) <= 3) /\
    (countable item = false -> fine_grained item = false ->
     (exists n, g = n * 10)%Z /\
     Qabs (inject_Z g - inject_Z kcal / k) <= 5.5).
Proof.
  intros _ Hk. unfold grams_for_kcal, getitem, countable, fine_grained.
  rewrite Hk. cbn [bind].
  destruct (mem item ["bananas"; "eggs"; "yogurt_cups"]%string);
    [|destruct (mem item ["mct_g"; "dextrin_g"]%string)];
    (eexists; split; [reflexivity|]);
    set (x := inject_Z kcal / k);
    destruct (round_near x) as [Hhi Hlo];
    pose proof (round_grid (Py.round x) 5 eq_refl) as H5;
    pose proof (round_grid (Py.round x) 10 eq_refl) as H10;
    change (inject_Z 5) with 5 in H5; change (inject_Z 10) with 10 in H10;
    apply Qabs_Qle_condition in H5 as [H5a H5b];
    apply Qabs_Qle_condition in H10 as [H10a H10b];
    clearbody x;
    set (g5 := inject_Z (Py.round (inject_Z (Py.round x) / 5) * 5)) in *;
    set (g10 := inject_Z (Py.round (inject_Z (Py.round x) / 10) * 10)) in *;
    set (r := inject_Z (Py.round x)) in *;
    clearbody g5 g10 r;
    (split; [|split]); try discriminate; intros;
    try (split; [eexists; reflexivity|]);
    apply Qabs_Qle_condition; split; lra.
Qed.

Lemma grams_for_kcal_rounding_witness :
  exists g,
    grams_for_kcal "oats_g" 100 = Ok g /\
    (exists n, g = n * 10)%Z /\
    Qabs (inject_Z g - inject_Z 100 / 4.0) <= 5.5.
Proof.
  assert (Hsize : (Z.abs 100 <= 20000)%Z) by (simpl; lia).
  destruct (grams_for_kcal_rounding "oats_g" 100 4.0 Hsize eq_refl)
    as (g & Hg & _ & _ & Hgrid).
  exists g. split; [exact Hg|]. exact (Hgrid eq_refl eq_refl).
Defined.

Lemma grams_for_kcal_sign (item : string) (kcal g : Z) :
  grams_for_kcal item kcal = Ok g ->
  ((0 <= kcal)%Z -> (0 <= g)%Z) /\ ((kcal <= 0)%Z -> (g <= 0)%Z).
Proof.
  unfold grams_for_kcal, getitem.
  destruct (lookup KCAL_PER_UNIT item) as [k|] eqn:Hk; [|discriminate].
  apply density_floor in Hk. assert (Hpos : 0 < k) by lra.
  cbn [bind].
  assert (Hx : ((0 <= kcal)%Z -> (0 <= Py.round (inject_Z kcal / k))%Z) /\
               ((kcal <= 0)%Z -> (Py.round (inject_Z kcal / k) <= 0)%Z)).
  { split; intros H.
    - apply round_nonneg, div_nonneg; [exact Hpos|now apply inject_Z_nonneg].
    - apply round_nonpos, div_nonpos; [exact Hpos|now apply inject_Z_nonpos]. }
  destruct Hx as [Hx1 Hx2].
  set (grams := Py.round (inject_Z kcal / k)) in *.
  assert (Hgrid : forall n : Q, 0 < n ->
            ((0 <= kcal)%Z -> (0 <= Py.round (inject_Z grams / n))%Z) /\
            ((kcal <= 0)%Z -> (Py.round (inject_Z grams / n) <= 0)%Z)).
  { intros n Hn. split; intros H.
    - apply round_nonneg, div_nonneg; [exact Hn|apply inject_Z_nonneg; auto].
    - apply round_nonpos, div_nonpos; [exact Hn|apply inject_Z_nonpos; auto]. }
  destruct (mem item ["bananas"; "eggs"; "yogurt_cups"]%string).
  - intros E; inversion E; subst. auto.
  - destruct (mem item ["mct_g"; "dextrin_g"]%string);
      intros E; inversion E; subst.
    + destruct (Hgrid 5 eq_refl). split; intros; lia.
    + destruct (Hgrid 10 eq_refl). split; intros; lia.
Qed.

(** ** The allocation loop, entry by entry *)

Lemma loop_body_append_sign item rem d a :
  loop_body item rem = Ok (Append d a) ->
  ((0 < rem)%Z -> (0 < d)%Z /\ (0 < a)%Z) /\
  ((rem < 0)%Z -> (d < 0)%Z /\ (a < 0)%Z).
Proof.
  unfold loop_body.
  destruct (Z.abs rem <=? 25)%Z; [discriminate|].
  destruct (_ && _); [discriminate|].
  destruct (grams_for_kcal item rem) as [d0|] eqn:Hg; [|discriminate].
  apply grams_for_kcal_sign in Hg as [Hg1 Hg2].
  cbn [bind]. unfold getitem.
  destruct (lookup KCAL_PER_UNIT item) as [k|] eqn:Hk; [|discriminate].
  apply density_floor in Hk. cbn [bind].
  intros E. inversion E as [[Hd Ha]]. clear E Ha.
  set (d' := if (d0 =? 0)%Z then _ else d0) in *.
  assert (Hsign : ((0 < rem)%Z -> (0 < d')%Z) /\ ((rem < 0)%Z -> (d' < 0)%Z)).
  { subst d'. destruct (d0 =? 0)%Z eqn:Hz.
    - destruct (endswith item "_g"), (rem <? 0)%Z eqn:Hr;
        try apply Z.ltb_lt in Hr; try apply Z.ltb_ge in Hr; split; lia.
    - apply Z.eqb_neq in Hz. split; intros; [assert (0 <= d0)%Z by (apply Hg1; lia)|assert (d0 <= 0)%Z by (apply Hg2; lia)]; lia. }
  subst d. destruct Hsign as [Hp Hn]. split; intros Hr.
  - specialize (Hp Hr). split; [exact Hp|].
    apply round_pos.
    assert (H1 : 1 <= inject_Z d')
      by (change 1 with (inject_Z 1); rewrite <- Zle_Qle; lia).
    nra.
  - specialize (Hn Hr). split; [exact Hn|].
    apply round_neg.
    assert (H1 : inject_Z d' <= -1)
      by (change (-1) with (inject_Z (-1)); rewrite <- Zle_Qle; lia).
    nra.
Qed.

Section Stepwise.

(** A property every appended entry has, given the [remaining] it was
    appended at. *)
Variable P : Z -> Entry -> Prop.
Hypothesis body_P : forall item rem d a,
  loop_body item rem = Ok (Append d a) -> P rem (item, d, a).

Variable kc : Z.

Lemma for_loop_stepwise items : forall rem plan rem' plan',
  for_loop items rem plan = Ok (rem', plan') ->
  rem = (kc - achieved_sum plan)%Z ->
  stepwise P kc plan ->
  stepwise P kc plan'.
Proof.
  induction items as [|item rest IH]; intros rem plan rem' plan' Hrun Hrem HP.
  - inversion Hrun; subst. exact HP.
  - simpl in Hrun.
    destruct (loop_body item rem) as [[| |d a]|k] eqn:Hc;
      simpl in Hrun; try discriminate.
    + inversion Hrun; subst. exact HP.
    + eapply IH; eauto.
    + eapply IH; [exact Hrun| |].
      * rewrite achieved_sum_snoc. unfold entry_achieved; simpl. lia.
      * intros pre e post Hsplit.
        apply snoc_split in Hsplit as [(_ & -> & ->)|(post' & _ & ->)].
        -- rewrite <- Hrem. now apply body_P.
        -- eapply HP; eauto.
Qed.

Lemma propose_adjustment_stepwise b plan :
  propose_adjustment kc b = Ok plan -> stepwise P kc plan.
Proof.
  unfold propose_adjustment. destruct (kc =? 0)%Z.
  - intros E; inversion E; subst. intros [|x pre] e post H; discriminate.
  - destruct (for_loop (adjust_priority b) kc []) as [[rem' plan']|k] eqn:Hl;
      simpl; [|discriminate].
    intros E; inversion E; subst plan'.
    eapply for_loop_stepwise; [exact Hl| |].
    + unfold achieved_sum; simpl. lia.
    + intros [|x pre] e post H; discriminate.
Qed.

End Stepwise.

(** X2. Every entry of a plan follows the sign of the kilocalories that
    remained when it was appended, in quantity and in achieved
    kilocalories, and more than 25 kcal remained then: no entry has a zero
    quantity, and none moves away from the target. *)
Theorem propose_adjustment_entries_follow_remaining :
  forall b kc plan pre e post,
    propose_adjustment kc b = Ok plan ->
    plan = pre ++ e :: post ->
    let remaining := (kc - achieved_sum pre)%Z in
    (25 < Z.abs remaining)%Z /\
    ((0 < remaining)%Z -> (0 < entry_delta e)%Z /\ (0 < entry_achieved e)%Z) /\
    ((remaining < 0)%Z -> (entry_delta e < 0)%Z /\ (entry_achieved e < 0)%Z) /\
    entry_delta e <> 0%Z.
Proof.
  intros b kc plan pre e post Hrun Hsplit remaining.
  pose proof (propose_adjustment_stepwise
                (fun rem e =>
                   (25 < Z.abs rem)%Z /\
                   ((0 < rem)%Z -> (0 < entry_delta e)%Z /\ (0 < entry_achieved e)%Z) /\
                   ((rem < 0)%Z -> (entry_delta e < 0)%Z /\ (entry_achieved e < 0)%Z)))
    as H.
  specialize (H (fun item rem d a Hb =>
                   conj (proj1 (loop_body_append item rem d a Hb))
                        (loop_body_append_sign item rem d a Hb))).
  specialize (H kc b plan Hrun pre e post Hsplit).
  cbv beta in H. fold remaining in H. destruct H as (H25 & Hp & Hn).
  repeat split; try tauto. lia.
Qed.

Lemma propose_adjustment_entries_follow_remaining_witness :
  (25 < Z.abs (30 - achieved_sum [("bananas"%string, 1%Z, 104%Z)]))%Z /\
  (entry_delta ("eggs"%string, (-1)%Z, (-78)%Z) < 0)%Z.
Proof.
  pose proof (propose_adjustment_entries_follow_remaining
                (with_priority ["bananas"; "eggs"]%string) 30%Z
                [("bananas"%string, 1%Z, 104%Z); ("eggs"%string, (-1)%Z, (-78)%Z)]
                [("bananas"%string, 1%Z, 104%Z)]
                ("eggs"%string, (-1)%Z, (-78)%Z) []
                eq_refl eq_refl) as H.
  cbv zeta in H. destruct H as (H25 & _ & Hn & _).
  split; [exact H25|]. apply Hn. reflexivity.
Defined.



Lemma subseq_nil_l {A} (l : list A) : subseq [] l.
Proof. induction l; constructor; auto. Qed.

Lemma subseq_length {A} (l1 l2 : list A) :
  subseq l1 l2 -> (List.length l1 <= List.length l2)%nat.
Proof. induction 1; simpl; lia. Qed.

Lemma for_loop_appends items : forall rem plan rem' plan',
  for_loop items rem plan = Ok (rem', plan') ->
  exists added,
    plan' = plan ++ added /\ subseq (map entry_item added) items.
Proof.
  induction items as [|item rest IH]; intros rem plan rem' plan' Hrun.
  - inversion Hrun; subst. exists []. rewrite app_nil_r. split; [auto|constructor].
  - simpl in Hrun.
    destruct (loop_body item rem) as [[| |d a]|k] eqn:Hc;
      simpl in Hrun; try discriminate.
    + inversion Hrun; subst. exists []. rewrite app_nil_r.
      split; [auto|apply subseq_nil_l].
    + apply IH in Hrun as (added & -> & Hs).
      exists added. split; [auto|now constructor].
    + apply IH in Hrun as (added & -> & Hs).
      exists ((item, d, a) :: added). rewrite <- app_assoc. split; [auto|].
      simpl. now constructor.
Qed.

(** X4. The plan follows the priority list: its ingredients are the
    priority list with some left out, in the same order, so an ingredient
    gets at most as many entries as it has places in the list and the plan
    is no longer than the list. *)
Theorem propose_adjustment_follows_priority :
  forall b kc plan,
    propose_adjustment kc b = Ok plan ->
    subseq (map entry_item plan) (adjust_priority b) /\
    (List.length plan <= List.length (adjust_priority b))%nat.
Proof.
  intros b kc plan Hrun.
  assert (Hs : subseq (map entry_item plan) (adjust_priority b)).
  { unfold propose_adjustment in Hrun. destruct (kc =? 0)%Z.
    - inversion Hrun; subst. apply subseq_nil_l.
    - destruct (for_loop (adjust_priority b) kc []) as [[rem' plan']|k] eqn:Hl;
        simpl in Hrun; [|discriminate].
      inversion Hrun; subst plan'.
      apply for_loop_appends in Hl as (added & -> & Hs). exact Hs. }
  split; [exact Hs|].
  apply subseq_length in Hs. now rewrite length_map in Hs.
Qed.

Lemma propose_adjustment_follows_priority_witness :
  subseq (map entry_item [("eggs"%string, 1%Z, 78%Z)]) ["whey_g"; "eggs"]%string.
Proof.
  exact (proj1 (propose_adjustment_follows_priority
                  (with_priority ["whey_g"; "eggs"]%string) 100%Z
                  [("eggs"%string, 1%Z, 78%Z)] eq_refl)).
Defined.

(** X5. A change of at most 25 kcal in size is left alone: the plan is
    empty whatever the baseline, even when its priority list names unknown
    ingredients. *)
Theorem propose_adjustment_small_change :
  forall b kc, (Z.abs kc <= 25)%Z -> propose_adjustment kc b = Ok [].
Proof.
  intros b kc Hkc. unfold propose_adjustment.
  destruct (kc =? 0)%Z; [reflexivity|].
  now rewrite for_loop_done.
Qed.

Lemma propose_adjustment_small_change_witness :
  propose_adjustment (-25) (with_priority ["taurine_g"]%string) = Ok [].
Proof.
  apply propose_adjustment_small_change. simpl. lia.
Defined.

Lemma loop_body_known item rem :
  lookup KCAL_PER_UNIT item <> None -> exists c, loop_body item rem = Ok c.
Proof.
  intros Hk. unfold loop_body.
  destruct (Z.abs rem <=? 25)%Z; [eexists; reflexivity|].
  destruct (_ && _); [eexists; reflexivity|].
  unfold grams_for_kcal, getitem.
  destruct (lookup KCAL_PER_UNIT item) as [k|]; [|contradiction].
  cbn [bind].
  destruct (mem item ["bananas"; "eggs"; "yogurt_cups"]%string);
    [|destruct (mem item ["mct_g"; "dextrin_g"]%string)];
    cbn [bind]; eexists; reflexivity.
Qed.

Lemma propose_adjustment_known_ok :
  forall b kc,
    Forall (fun item => lookup KCAL_PER_UNIT item <> None) (adjust_priority b) ->
    exists plan, propose_adjustment kc b = Ok plan.
Proof.
  intros b kc Hall. unfold propose_adjustment.
  destruct (kc =? 0)%Z; [eexists; reflexivity|].
  assert (H : forall items rem plan,
             Forall (fun item => lookup KCAL_PER_UNIT item <> None) items ->
             exists st, for_loop items rem plan = Ok st).
  { induction items as [|item rest IH]; intros rem plan HF.
    - eexists; reflexivity.
    - inversion HF as [|? ? Hitem Hrest]; subst. simpl.
      destruct (loop_body_known item rem Hitem) as [[| |d a] ->]; simpl.
      + eexists; reflexivity.
      + now apply IH.
      + now apply IH. }
  destruct (H (adjust_priority b) kc [] Hall) as [st ->].
  eexists; reflexivity.
Qed.

(** X6. When every ingredient of the priority list has a density, a
    requested change of at most 20000 kcal in size meets no missing key:
    [propose_adjustment] returns a plan. *)
Theorem propose_adjustment_total_on_known :
  forall b kc,
    (Z.abs kc <= 20000)%Z ->
    Forall (fun item => lookup KCAL_PER_UNIT item <> None) (adjust_priority b) ->
    exists plan, propose_adjustment kc b = Ok plan.
Proof. intros b kc _. apply propose_adjustment_known_ok. Qed.

Lemma propose_adjustment_total_on_known_witness :
  exists plan, propose_adjustment (-100) BASELINE = Ok plan.
Proof.
  apply propose_adjustment_total_on_known; [simpl; lia|].
  repeat constructor; discriminate.
Defined.

(** ** Advisor and allocator together *)

(** X7. The advisor never raises the calories more for a larger weekly
    gain: [suggest_calorie_adjustment] is non-increasing. *)
Theorem suggest_calorie_adjustment_monotone (d1 d2 : Q) :
  d1 <= d2 ->
  (suggest_calorie_adjustment d2 <= suggest_calorie_adjustment d1)%Z.
Proof.
  intros Hle. unfold suggest_calorie_adjustment.
  repeat (py_case; py_cmp; simpl; try lia; try lra).
Qed.

Lemma suggest_calorie_adjustment_monotone_witness :
  (suggest_calorie_adjustment 0.6 <= suggest_calorie_adjustment 0.2)%Z.
Proof.
  apply suggest_calorie_adjustment_monotone. unfold Qle; simpl; lia.
Defined.

(** X8. With the locked baseline the weekly recommendation touches MCT oil
    only: for every weekly gain the plan is empty or a single [mct_g]
    entry, and it achieves the advised change to within 15 kcal. *)
Theorem report_plan_on_locked_baseline (wk_gain : Q) :
  exists plan,
    propose_adjustment (suggest_calorie_adjustment wk_gain) BASELINE = Ok plan /\
    (plan = [] \/ exists g a, plan = [("mct_g"%string, g, a)]) /\
    (Z.abs (suggest_calorie_adjustment wk_gain - achieved_sum plan) <= 15)%Z.
Proof.
  unfold suggest_calorie_adjustment.
  repeat (py_case; simpl);
    (eexists; split; [vm_compute; reflexivity|];
     split; [first [left; reflexivity | right; eexists; eexists; reflexivity]
            |vm_compute; discriminate]).
Qed.

(** ** Windows over a series *)

Lemma length_present_le (l : list (option Q)) :
  (List.length (present l) <= List.length l)%nat.
Proof.
  unfold present. induction l as [|[x|] l IH]; simpl; lia.
Qed.

Lemma present_full_iff (l : list (option Q)) :
  List.length (present l) = List.length l <-> Forall (fun v => v <> None) l.
Proof.
  induction l as [|[x|] l IH].
  - split; [constructor|reflexivity].
  - change (present (Some x :: l)) with (x :: present l). simpl. split.
    + intros H. constructor; [discriminate|]. apply IH. lia.
    + intros H. inversion H; subst. f_equal. now apply IH.
  - change (present (None :: l)) with (present l). simpl. split.
    + intros H. pose proof (length_present_le l). lia.
    + intros H. inversion H; subst. congruence.
Qed.

Lemma length_window (A : Type) (s : list A) (w i : nat) :
  (w <= i + 1)%nat -> (i < List.length s)%nat ->
  List.length (skipn (i + 1 - w) (firstn (i + 1) s)) = w.
Proof.
  intros Hw Hi. rewrite length_skipn, length_firstn. lia.
Qed.

Lemma window_app (A : Type) (pre s : list A) (w i : nat) :
  (w <= i + 1)%nat ->
  skipn (List.length pre + i + 1 - w)
        (firstn (List.length pre + i + 1) (pre ++ s))
  = skipn (i + 1 - w) (firstn (i + 1) s).
Proof.
  intros Hw.
  replace (List.length pre + i + 1)%nat with (List.length pre + (i + 1))%nat by lia.
  rewrite firstn_app_2, skipn_app.
  rewrite skipn_all2 by lia.
  replace (List.length pre + (i + 1) - w - List.length pre)%nat
    with (i + 1 - w)%nat by lia.
  reflexivity.
Qed.

Lemma rolling_mean_app w mp pre s i :
  (w <= i + 1)%nat -> (i < List.length s)%nat ->
  nth (List.length pre + i) (rolling_mean w mp (pre ++ s)) None
  = nth i (rolling_mean w mp s) None.
Proof.
  intros Hw Hi.
  rewrite !rolling_mean_nth by (rewrite ?length_app; lia).
  cbv zeta. now rewrite window_app.
Qed.

Lemma rolling_mean_value_iff (w : nat) (s : list (option Q)) (i : nat) :
  (0 < w)%nat -> (i < List.length s)%nat ->
  (nth i (rolling_mean w w s) None <> None <->
   (w <= i + 1)%nat /\
   Forall (fun v => v <> None) (skipn (i + 1 - w) (firstn (i + 1) s))).
Proof.
  intros Hw Hi. rewrite rolling_mean_nth by exact Hi. cbv zeta.
  set (wdw := skipn (i + 1 - w) (firstn (i + 1) s)).
  pose proof (length_present_le wdw) as Hle.
  assert (Hlen : List.length wdw = Nat.min w (i + 1)).
  { unfold wdw. rewrite length_skipn, length_firstn. lia. }
  destruct (List.length (present wdw) <? w)%nat eqn:Hlt.
  - apply Nat.ltb_lt in Hlt. split; [congruence|].
    intros [Hwi Hall]. apply present_full_iff in Hall. lia.
  - apply Nat.ltb_ge in Hlt. split; [|discriminate].
    intros _. split; [lia|]. apply present_full_iff. lia.
Qed.

Lemma weekly_delta_app (pre s : list (option Q)) :
  (14 <= List.length s)%nat ->
  weekly_delta_7day_avg (pre ++ s) = weekly_delta_7day_avg s.
Proof.
  intros Hn. unfold weekly_delta_7day_avg, iloc_back.
  rewrite !length_rolling_mean, length_app.
  destruct (List.length s <? 14)%nat eqn:H1; [apply Nat.ltb_lt in H1; lia|].
  destruct (List.length pre + List.length s <? 14)%nat eqn:H2;
    [apply Nat.ltb_lt in H2; lia|].
  replace (List.length pre + List.length s - 1)%nat
    with (List.length pre + (List.length s - 1))%nat by lia.
  replace (List.length pre + List.length s - 8)%nat
    with (List.length pre + (List.length s - 8))%nat by lia.
  rewrite !rolling_mean_app by lia. reflexivity.
Qed.

Lemma tail_split (A : Type) (n : nat) (l : list A) :
  l = firstn (List.length l - n) l ++ tail n l.
Proof. unfold tail. now rewrite firstn_skipn. Qed.

Lemma length_tail (A : Type) (n : nat) (l : list A) :
  List.length (tail n l) = Nat.min n (List.length l).
Proof. unfold tail. rewrite length_skipn. lia. Qed.

(** X11. On 14 or more points the weekly delta has a value exactly when
    none of the last 14 is missing; one gap among them gives no value
    rather than a mean over fewer days. *)
Theorem weekly_delta_7day_avg_value_iff (s : list (option Q)) :
  (14 <= List.length s)%nat ->
  (weekly_delta_7day_avg s <> None <->
   Forall (fun v => v <> None) (tail 14 s)).
Proof.
  intros Hn.
  rewrite (tail_split _ 14 s) at 1.
  rewrite weekly_delta_app by (rewrite length_tail; lia).
  pose proof (length_tail _ 14 s) as Hlen.
  rewrite Nat.min_l in Hlen by lia.
  set (t := tail 14 s) in *. clearbody t.
  unfold weekly_delta_7day_avg, iloc_back.
  rewrite length_rolling_mean, Hlen. cbn [Nat.ltb Nat.leb Nat.sub].
  pose proof (rolling_mean_value_iff 7 t 13) as H13.
  pose proof (rolling_mean_value_iff 7 t 6) as H6.
  assert (Ht : t = firstn 7 t ++ skipn 7 t) by (now rewrite firstn_skipn).
  assert (E13 : skipn (13 + 1 - 7) (firstn (13 + 1) t) = skipn 7 t).
  { change (13 + 1)%nat with 14%nat. rewrite firstn_all2 by lia. reflexivity. }
  assert (E6 : skipn (6 + 1 - 7) (firstn (6 + 1) t) = firstn 7 t) by reflexivity.
  rewrite E13 in H13. rewrite E6 in H6.
  specialize (H13 ltac:(lia) ltac:(lia)). specialize (H6 ltac:(lia) ltac:(lia)).
  split.
  - intros Hdef. rewrite Ht. apply Forall_app.
    destruct (nth 13 (rolling_mean 7 7 t) None) eqn:E1; [|congruence].
    destruct (nth 6 (rolling_mean 7 7 t) None) eqn:E2; [|congruence].
    split; [apply H6; [discriminate]|apply H13; discriminate].
  - intros Hall. rewrite Ht in Hall. apply Forall_app in Hall as [Ha Hb].
    assert (D13 : nth 13 (rolling_mean 7 7 t) None <> None)
      by (apply H13; split; [lia|exact Hb]).
    assert (D6 : nth 6 (rolling_mean 7 7 t) None <> None)
      by (apply H6; split; [lia|exact Ha]).
    destruct (nth 13 (rolling_mean 7 7 t) None); [|congruence].
    destruct (nth 6 (rolling_mean 7 7 t) None); [discriminate|congruence].
Qed.

Lemma weekly_delta_7day_avg_value_iff_witness :
  ~ weekly_delta_7day_avg (map Some (repeat 180 13) ++ [None]) <> None.
Proof.
  intros H.
  apply (weekly_delta_7day_avg_value_iff (map Some (repeat 180 13) ++ [None]))
    in H; [|simpl; lia].
  apply Forall_forall with (x := None) in H; [congruence|].
  vm_compute. do 13 right. left. reflexivity.
Defined.

Lemma weekly_delta_gap_free (xs : list Q) :
  (14 <= List.length xs)%nat ->
  weekly_delta_7day_avg (map Some xs) =
  Some (trailing_mean 7 xs (List.length xs - 1)
        - trailing_mean 7 xs (List.length xs - 8)).
Proof.
  intros Hn. unfold weekly_delta_7day_avg, iloc_back.
  rewrite length_map, length_rolling_mean, length_map.
  destruct (List.length xs <? 14)%nat eqn:Hlt;
    [apply Nat.ltb_lt in Hlt; lia|].
  rewrite !rolling_mean_full by lia. reflexivity.
Qed.

(** ** Records, derived columns and day order *)

(** X13. Every row of [df_entries] comes from a stored entry, and its
    derived lean mass and fat mass are present exactly when the entry has a
    morning body-fat percentage. *)
Theorem df_entries_masses (entries : list DailyEntry) (row : Row) :
  In row (df_entries entries) ->
  In (entry row) entries /\
  match bf_morning_pct (entry row) with
  | Some bf => lean_mass_lb row <> None /\ fat_mass_lb row <> None
  | None => lean_mass_lb row = None /\ fat_mass_lb row = None
  end.
Proof.
  unfold df_entries. rewrite in_map_iff. intros (r & <- & Hin).
  split.
  - revert Hin. unfold sort_values_day.
    assert (H : forall l acc,
               In r (fold_left (fun acc r => insert_by_day r acc) l acc) ->
               In r l \/ In r acc).
    { induction l as [|x l IH]; intros acc Hr; simpl in *; [auto|].
      apply IH in Hr as [Hr|Hr]; [auto|].
      assert (Hins : forall rs, In r (insert_by_day x rs) -> r = x \/ In r rs).
      { induction rs as [|y rs IHrs]; simpl.
        - intros [->|[]]; auto.
        - destruct (String.ltb (day x) (day y)); simpl.
          + intros [->|[->|H]]; auto.
          + intros [->|H]; auto. apply IHrs in H as [->|H]; auto. }
      apply Hins in Hr as [->|Hr]; auto. }
    intros Hr. apply H in Hr as [Hr|[]]. exact Hr.
  - simpl. destruct (bf_morning_pct r) as [bf|]; split; auto; discriminate.
Qed.

Lemma df_entries_masses_witness :
  In (entry lean_last) lean_log /\
  lean_mass_lb lean_last <> None /\ fat_mass_lb lean_last <> None.
Proof.
  assert (Hin : In lean_last (df_entries lean_log))
    by (vm_compute; do 13 right; left; reflexivity).
  exact (df_entries_masses lean_log lean_last Hin).
Defined.

Lemma string_ltb_lt (a b : string) :
  String.ltb a b = true -> OrdersEx.String_as_OT.lt a b.
Proof.
  unfold String.ltb. intros H. change (String.compare a b = Lt).
  destruct (String.compare a b); congruence.
Qed.

Lemma string_ltb_trans (a b c : string) :
  String.ltb a b = true -> String.ltb b c = true -> String.ltb a c = true.
Proof.
  intros Hab Hbc. apply string_ltb_lt in Hab, Hbc.
  pose proof (@StrictOrder_Transitive _ _ OrdersEx.String_as_OT.lt_strorder
                a b c Hab Hbc) as H.
  change (String.compare a c = Lt) in H.
  unfold String.ltb. now rewrite H.
Qed.

Lemma string_ltb_asym (a b : string) :
  String.ltb a b = true -> String.ltb b a = false.
Proof.
  unfold String.ltb. rewrite (String.compare_antisym b a).
  destruct (String.compare a b); simpl; congruence.
Qed.

Lemma insert_by_day_perm (r : DailyEntry) (rs : list DailyEntry) :
  Permutation (insert_by_day r rs) (r :: rs).
Proof.
  induction rs as [|x rs IH]; simpl; [auto|].
  destruct (String.ltb (day r) (day x)); [auto|].
  rewrite IH. apply perm_swap.
Qed.

Lemma insert_by_day_sorted (r : DailyEntry) (rs : list DailyEntry) :
  StronglySorted day_le rs -> StronglySorted day_le (insert_by_day r rs).
Proof.
  induction 1 as [|x rs Hs IH Hx]; simpl.
  - repeat constructor.
  - destruct (String.ltb (day r) (day x)) eqn:Hlt.
    + constructor; [now constructor|].
      constructor; [now apply string_ltb_asym|].
      rewrite Forall_forall in *. intros y Hy. specialize (Hx y Hy).
      unfold day_le in *.
      destruct (String.ltb (day y) (day r)) eqn:Hyr; [|reflexivity].
      rewrite (string_ltb_trans _ _ _ Hyr Hlt) in Hx. discriminate.
    + constructor; [exact IH|].
      rewrite insert_by_day_perm. constructor; [exact Hlt|exact Hx].
Qed.

Lemma sort_values_day_spec (l : list DailyEntry) :
  Permutation (sort_values_day l) l /\ StronglySorted day_le (sort_values_day l).
Proof.
  unfold sort_values_day.
  assert (H : forall l acc,
             StronglySorted day_le acc ->
             Permutation (fold_left (fun acc r => insert_by_day r acc) l acc)
                         (acc ++ l) /\
             StronglySorted day_le
               (fold_left (fun acc r => insert_by_day r acc) l acc)).
  { clear l. induction l as [|x l IH]; intros acc Hacc; simpl.
    - rewrite app_nil_r. auto.
    - destruct (IH (insert_by_day x acc) (insert_by_day_sorted x acc Hacc))
        as [Hp Hs].
      split; [|exact Hs].
      rewrite Hp, insert_by_day_perm. apply Permutation_middle. }
  destruct (H l [] (SSorted_nil _)) as [Hp Hs]. auto.
Qed.

(** X14. [df_entries] loses, repeats and invents no record: its rows are
    the stored entries in some order, as many as there are entries. *)
Theorem df_entries_permutation (entries : list DailyEntry) :
  Permutation (map entry (df_entries entries)) entries /\
  List.length (df_entries entries) = List.length entries.
Proof.
  assert (E : map entry (df_entries entries) = sort_values_day entries).
  { unfold df_entries. rewrite map_map. simpl. apply map_id. }
  destruct (sort_values_day_spec entries) as [Hp _].
  rewrite E. split; [exact Hp|].
  rewrite <- (length_map entry), E. now apply Permutation_length.
Qed.

(** ** Storing a day *)

Lemma kept_permutation (keep : DailyEntry -> bool) (xs ys : list DailyEntry) :
  Permutation xs ys -> Permutation (filter keep xs) (filter keep ys).
Proof.
  intros H. induction H as [|x xs ys _ IH|x y xs|xs ys zs _ IH1 _ IH2]; simpl.
  - constructor.
  - destruct (keep x); auto.
  - destruct (keep x), (keep y); auto. apply perm_swap.
  - now rewrite IH1.
Qed.

Lemma filter_none {A} (f : A -> bool) (l : list A) :
  (forall x, In x l -> f x = false) -> filter f l = [].
Proof.
  induction l as [|x l IH]; intros H; simpl; [reflexivity|].
  rewrite (H x (or_introl eq_refl)). apply IH. intros y Hy. apply H. now right.
Qed.

(** X16. Logging a day replaces it: after [log_entry] stores an entry, the
    stored list is in day order, holds the new entry as the only one of its
    day, and holds of the other days exactly the entries it held before. *)
Theorem log_entry_store_replaces (entries : list DailyEntry) (e : DailyEntry) :
  StronglySorted day_le (log_entry_store entries e) /\
  filter (fun x => String.eqb (day x) (day e)) (log_entry_store entries e) = [e] /\
  (forall x, day x <> day e ->
             (In x (log_entry_store entries e) <-> In x entries)).
Proof.
  unfold log_entry_store.
  set (kept := filter (fun x => negb (String.eqb (day x) (day e))) entries).
  destruct (sort_values_day_spec (kept ++ [e])) as [Hp Hs].
  split; [exact Hs|]. split.
  - apply Permutation_length_1_inv. symmetry.
    rewrite (kept_permutation _ _ _ Hp), filter_app. simpl.
    rewrite String.eqb_refl.
    rewrite filter_none; [reflexivity|].
    intros x Hx. apply filter_In in Hx as [_ Hx].
    now apply negb_true_iff in Hx.
  - intros x Hx. split.
    + intros Hin. apply (Permutation_in _ Hp) in Hin.
      apply in_app_or in Hin as [Hin|[<-|[]]]; [|contradiction].
      apply filter_In in Hin. tauto.
    + intros Hin. apply (Permutation_in _ (Permutation_sym Hp)).
      apply in_or_app. left. apply filter_In. split; [exact Hin|].
      apply negb_true_iff, String.eqb_neq. exact Hx.
Qed.

Lemma log_entry_store_replaces_witness :
  In lean_first.(entry)
     (log_entry_store lean_log
        (sample_entry "2026-01-14" 182.0 None None None)).
Proof.
  apply (proj2 (proj2 (log_entry_store_replaces lean_log
                         (sample_entry "2026-01-14" 182.0 None None None)))).
  - discriminate.
  - left. reflexivity.
Defined.

Lemma kept_days_unique (keep : DailyEntry -> bool) (entries : list DailyEntry) :
  NoDup (map day entries) -> NoDup (map day (filter keep entries)).
Proof.
  induction entries as [|x rest IH]; simpl; intros H; [constructor|].
  inversion H as [|? ? Hx Hrest]; subst.
  destruct (keep x); simpl; [|auto].
  constructor; [|auto].
  intros Hin. apply Hx. apply in_map_iff in Hin as (y & Hy & Hin).
  apply in_map_iff. exists y. split; [exact Hy|].
  apply filter_In in Hin. tauto.
Qed.

(** X17. Storing a day keeps days unique, whether the day is new or
    logged again, and the number of stored entries grows by one only for a
    new day. *)
Theorem log_entry_store_unique_days (entries : list DailyEntry) (e : DailyEntry) :
  NoDup (map day entries) ->
  NoDup (map day (log_entry_store entries e)) /\
  (~ In (day e) (map day entries) ->
   List.length (log_entry_store entries e) = S (List.length entries)) /\
  (In (day e) (map day entries) ->
   List.length (log_entry_store entries e) = List.length entries).
Proof.
  intros Hnd. unfold log_entry_store.
  set (keep := fun x => negb (String.eqb (day x) (day e))).
  destruct (sort_values_day_spec (filter keep entries ++ [e])) as [Hp _].
  assert (Hlen : List.length (sort_values_day (filter keep entries ++ [e]))
                 = S (List.length (filter keep entries))).
  { rewrite (Permutation_length Hp), length_app. simpl. lia. }
  split; [|split].
  - apply (Permutation_NoDup (Permutation_sym (Permutation_map day Hp))).
    rewrite map_app. simpl.
    apply (Permutation_NoDup (Permutation_cons_append _ _)).
    constructor; [|now apply kept_days_unique].
    intros Hin. apply in_map_iff in Hin as (y & Hy & Hin).
    apply filter_In in Hin as [_ Hk]. unfold keep in Hk.
    apply negb_true_iff, String.eqb_neq in Hk. congruence.
  - intros Hnew. rewrite Hlen. f_equal. f_equal.
    clear - Hnew. induction entries as [|x l IH]; [reflexivity|].
    simpl in *. unfold keep at 1.
    destruct (String.eqb (day x) (day e)) eqn:E.
    + apply String.eqb_eq in E. exfalso. apply Hnew. left. exact E.
    + simpl. f_equal. apply IH. tauto.
  - intros Hold. rewrite Hlen.
    clear - Hold Hnd. induction entries as [|x l IH]; [contradiction|].
    simpl in *. inversion Hnd as [|? ? Hx Hl]; subst. unfold keep at 1.
    destruct (String.eqb (day x) (day e)) eqn:E; simpl.
    + apply String.eqb_eq in E. f_equal.
      assert (Hall : filter keep l = l); [|now rewrite Hall].
      clear - Hx E. induction l as [|y l IH]; [reflexivity|].
      simpl in *. unfold keep at 1.
      destruct (String.eqb (day y) (day e)) eqn:E2.
      * apply String.eqb_eq in E2. exfalso. apply Hx. left. congruence.
      * simpl. f_equal. apply IH. tauto.
    + apply String.eqb_neq in E. f_equal. apply IH; [exact Hl|].
      destruct Hold as [Hd|Hd]; [congruence|exact Hd].
Qed.

Lemma log_entry_store_unique_days_witness :
  NoDup (map day (log_entry_store slack_log
                    (sample_entry "2026-01-07" 180.1 None None None))) /\
  List.length (log_entry_store slack_log
                 (sample_entry "2026-01-07" 180.1 None None None)) = 14%nat.
Proof.
  assert (Hnd : NoDup (map day slack_log)).
  { repeat constructor; simpl; intuition discriminate. }
  destruct (log_entry_store_unique_days slack_log
              (sample_entry "2026-01-07" 180.1 None None None) Hnd)
    as (H1 & _ & H3).
  split; [exact H1|].
  apply H3. vm_compute. do 6 right. left. reflexivity.
Defined.

(** ** The 14-day window of the analysis *)

Lemma tail_app (A : Type) (n : nat) (pre l : list A) :
  (n <= List.length l)%nat -> tail n (pre ++ l) = tail n l.
Proof.
  intros Hn. unfold tail. rewrite length_app, skipn_app.
  rewrite skipn_all2 by lia.
  replace (List.length pre + List.length l - n - List.length pre)%nat
    with (List.length l - n)%nat by lia.
  reflexivity.
Qed.

(** X18. The lean-gain ratio is a function of the last 14 rows: with 14 or
    more rows, any history before them leaves it unchanged, in binary64 as
    in exact arithmetic. *)
Theorem lean_gain_ratio_14d_reads_last_14 :
  (forall pre e : Frame,
      (14 <= List.length e)%nat ->
      lean_gain_ratio_14d (pre ++ e) = lean_gain_ratio_14d e) /\
  (forall pre e : B64.Frame,
      (14 <= List.length e)%nat ->
      B64.lean_gain_ratio_14d (pre ++ e) = B64.lean_gain_ratio_14d e).
Proof.
  split; intros pre e Hn.
  - unfold lean_gain_ratio_14d. now rewrite tail_app.
  - unfold B64.lean_gain_ratio_14d. now rewrite tail_app.
Qed.

Lemma lean_gain_ratio_14d_reads_last_14_witness :
  lean_gain_ratio_14d (df_entries slack_log ++ df_entries lean_log)
  = lean_gain_ratio_14d (df_entries lean_log).
Proof.
  apply (proj1 lean_gain_ratio_14d_reads_last_14
           (df_entries slack_log) (df_entries lean_log)).
  vm_compute. lia.
Defined.

(** ** The cascade of [diagnose] *)

(** X19. With adherence fractions in [0, 1] whose mean is 0.91 or more, a
    deload flag on any of the last 14 days decides the verdict: it is one
    of the two deload verdicts, "hold and reassess" for a weekly delta of
    0.09 or less and "avoid training conclusions" for one of 0.11 or more,
    whatever the waist, lean mass and notes say. *)
Theorem diagnose_deload_second (e : Frame) (wk_gain : Q) (r : Row) :
  (14 <= List.length e)%nat ->
  weekly_delta_7day_avg (weights e) = Some wk_gain ->
  Forall (fun r => match adherence_0to1 (entry r) with
                   | Some a => 0 <= a /\ a <= 1
                   | None => True
                   end) (tail 14 e) ->
  0.91 <= mean (map (fun r => match adherence_0to1 (entry r) with
                              | Some a => a
                              | None => 1.0
                              end) (tail 14 e)) ->
  In r (tail 14 e) ->
  deload_week (entry r) = Some true ->
  (wk_gain <= 0.09 ->
   diagnose e =
   "Deload flagged. Weight not moving is acceptable; hold diet steady and reassess after deload."%string) /\
  (0.11 <= wk_gain ->
   diagnose e =
   "Deload flagged. Avoid training conclusions; reassess next week."%string) /\
  (diagnose e =
   "Deload flagged. Weight not moving is acceptable; hold diet steady and reassess after deload."%string \/
   diagnose e =
   "Deload flagged. Avoid training conclusions; reassess next week."%string).
Proof.
  intros Hlen Hwk _ Hadh Hin Hdl. unfold diagnose.
  destruct (List.length e <? 14)%nat eqn:Hlt;
    [apply Nat.ltb_lt in Hlt; lia|].
  rewrite Hwk. cbv zeta.
  assert (Hadh' : Py.ltb
                    (mean (map (fun r0 => fillna 1.0 (adherence_0to1 (entry r0)))
                               (tail 14 e))) 0.9 = false).
  { apply PyFacts.ltb_ge.
    change (fun r0 => fillna 1.0 (adherence_0to1 (entry r0)))
      with (fun r0 => match adherence_0to1 (entry r0) with
                      | Some a => a
                      | None => 1.0
                      end).
    lra. }
  rewrite Hadh'.
  assert (Hd : existsb (fun r0 => fillna false (deload_week (entry r0)))
                       (tail 14 e) = true).
  { apply existsb_exists. exists r. split; [exact Hin|]. now rewrite Hdl. }
  rewrite Hd.
  destruct (Py.ltb wk_gain 0.10) eqn:Hw; py_cmp;
    (split; [intros H|split; [intros H|]]);
    try reflexivity; try lra; auto.
Qed.

Lemma diagnose_deload_second_witness :
  diagnose (df_entries deload_log) =
  "Deload flagged. Weight not moving is acceptable; hold diet steady and reassess after deload."%string.
Proof.
  refine (proj1 (diagnose_deload_second (df_entries deload_log)
                   (trailing_mean 7 (map morning_weight_lb deload_log) 13
                    - trailing_mean 7 (map morning_weight_lb deload_log) 6)
                   (derive deload_day) _ _ _ _ _ _) _).
  - vm_compute. lia.
  - vm_compute. reflexivity.
  - repeat constructor.
  - vm_compute. discriminate.
  - vm_compute. do 9 right. left. reflexivity.
  - reflexivity.
  - vm_compute. discriminate.
Defined.

(** X20. A verdict that rests on a signal is not given without the signal:
    with fewer than two waist readings in the last 14 days [diagnose] never
    returns the overshoot verdict, and with fewer than two lean-mass values
    it never returns the lean-mass hint. *)
Theorem diagnose_needs_its_signal (e : Frame) :
  (change_over (map (fun r => waist_in (entry r)) (tail 14 e)) = None ->
   diagnose e <>
   "Likely diet overshoot (gain too fast + waist rising). Reduce calories slightly."%string) /\
  (change_over (map lean_mass_lb (tail 14 e)) = None ->
   diagnose e <>
   "Weight up but estimated lean mass down (likely BIA noise or glycogen/hydration swing). Check hydration consistency + use 7-day averages."%string).
Proof.
  split; intros Hnone; unfold diagnose; rewrite Hnone;
    (destruct (List.length e <? 14)%nat; [discriminate|]);
    (destruct (weekly_delta_7day_avg (weights e)) as [wk|]; [|discriminate]);
    cbv zeta; rewrite ?andb_false_r;
    repeat match goal with
           | |- context [if ?c then _ else _] =>
               destruct c; try discriminate
           end.
Qed.

Lemma diagnose_needs_its_signal_witness :
  diagnose (df_entries slack_log) <>
  "Likely diet overshoot (gain too fast + waist rising). Reduce calories slightly."%string.
Proof.
  apply (proj1 (diagnose_needs_its_signal (df_entries slack_log))).
  reflexivity.
Defined.

(** ** [report] *)

Lemma weights_gap_free (e : Frame) :
  weights e = map Some (map weight_of e).
Proof. unfold weights, weight_of. now rewrite map_map. Qed.

Lemma length_df_entries (entries : list DailyEntry) :
  List.length (df_entries entries) = List.length entries.
Proof.
  unfold df_entries. rewrite length_map.
  apply Permutation_length, sort_values_day_spec.
Qed.

(** X21. [report] gives its "not enough" answer exactly below 14 logged
    days: with fewer it computes nothing, and with 14 or more (and a
    priority list of known ingredients) it returns the advised change for
    its weekly delta, the plan of that change and the diagnosis of the
    frame. *)
Theorem report_needs_14_days (entries : list DailyEntry) (b : Baseline) :
  ((List.length entries < 14)%nat -> report entries b = Ok None) /\
  ((14 <= List.length entries)%nat ->
   Forall (fun item => lookup KCAL_PER_UNIT item <> None) (adjust_priority b) ->
   exists loc,
     report entries b = Ok (Some loc) /\
     weekly_delta_7day_avg (weights (df_entries entries)) = Some (r_wk_gain loc) /\
     r_kcal_adj loc = suggest_calorie_adjustment (r_wk_gain loc) /\
     propose_adjustment (r_kcal_adj loc) b = Ok (r_adj_plan loc) /\
     r_diag loc = diagnose (df_entries entries)).
Proof.
  unfold report. rewrite length_df_entries. split.
  - intros Hn. destruct (List.length entries <? 7)%nat; [reflexivity|].
    unfold weekly_delta_7day_avg.
    unfold weights. rewrite length_map, length_df_entries.
    apply Nat.ltb_lt in Hn. now rewrite Hn.
  - intros Hn Hknown.
    destruct (List.length entries <? 7)%nat eqn:H7;
      [apply Nat.ltb_lt in H7; lia|].
    rewrite weights_gap_free, weekly_delta_gap_free
      by (now rewrite length_map, length_df_entries).
    set (wk := _ - _).
    destruct (propose_adjustment_known_ok
                b (suggest_calorie_adjustment wk) Hknown) as [plan Hplan].
    rewrite Hplan. cbn [bind].
    eexists. split; [reflexivity|]. cbn.
    repeat split; auto.
Qed.

Lemma report_needs_14_days_witness :
  report (firstn 13 slack_log) BASELINE = Ok None /\
  exists loc, report slack_log BASELINE = Ok (Some loc).
Proof.
  destruct (report_needs_14_days (firstn 13 slack_log) BASELINE) as [H1 _].
  destruct (report_needs_14_days slack_log BASELINE) as [_ H2].
  split.
  - apply H1. vm_compute. lia.
  - destruct H2 as (loc & Hloc & _).
    + vm_compute. lia.
    + repeat constructor; discriminate.
    + exists loc. exact Hloc.
Defined.

(** X22. The cardio notes of [report] are one per day, in day order, for
    exactly those of the last 7 days whose cardio minutes are present and
    above the threshold. *)
Theorem report_cardio_notes (entries : list DailyEntry) (b : Baseline)
  (loc : ReportLocals) :
  report entries b = Ok (Some loc) ->
  map fst (r_cardio_notes loc) =
  map (fun r => day (entry r))
      (filter (cardio_over b) (tail 7 (df_entries entries))).
Proof.
  unfold report.
  destruct (List.length (df_entries entries) <? 7)%nat; [discriminate|].
  destruct (weekly_delta_7day_avg _) as [wk|]; [|discriminate].
  destruct (propose_adjustment _ b) as [plan|k]; simpl; [|discriminate].
  intros E. inversion E; subst loc; clear E. cbn [r_cardio_notes].
  induction (tail 7 (df_entries entries)) as [|r l IH]; [reflexivity|].
  cbn [filter]. unfold cardio_over at 1.
  destruct (cardio_min (entry r)) as [m|] eqn:Hm; cbn [fillna].
  - destruct (threshold_min (cardio_fuel b) <? m)%Z eqn:Ht.
    + cbn [flat_map map]. rewrite Hm. cbn [option_map].
      unfold cardio_fuel_note at 1. rewrite int_inject_Z, Ht.
      destruct (String.eqb _ _); cbn [app map fst]; now rewrite IH.
    + exact IH.
  - destruct (threshold_min (cardio_fuel b) <? 0)%Z.
    + cbn [flat_map]. rewrite Hm. cbn [option_map cardio_fuel_note app].
      exact IH.
    + exact IH.
Qed.

Lemma report_cardio_notes_witness :
  exists loc,
    report cardio_log BASELINE = Ok (Some loc) /\
    map fst (r_cardio_notes loc) = ["2026-01-14"%string].
Proof.
  destruct (report cardio_log BASELINE) as [[loc|]|k] eqn:E.
  - exists loc. split; [reflexivity|].
    rewrite (report_cardio_notes cardio_log BASELINE loc E).
    vm_compute. reflexivity.
  - vm_compute in E. discriminate.
  - vm_compute in E. discriminate.
Defined.

(** ** Body fat and masses *)

(** X24. For a body-fat percentage between 0 and 100 and a weight that is
    not negative, the derived lean mass and fat mass both lie between 0 and
    the morning weight. *)
Theorem derive_masses_in_range (r : DailyEntry) (bf : Q) :
  bf_morning_pct r = Some bf ->
  0 <= bf <= 100 ->
  0 <= morning_weight_lb r ->
  exists lm fm,
    lean_mass_lb (derive r) = Some lm /\ fat_mass_lb (derive r) = Some fm /\
    0 <= lm <= morning_weight_lb r /\ 0 <= fm <= morning_weight_lb r.
Proof.
  intros Hbf Hr Hw. unfold derive; simpl. rewrite Hbf.
  do 2 eexists. split; [reflexivity|]. split; [reflexivity|].
  set (w := morning_weight_lb r) in *.
  assert (E : bf / 100.0 == bf * (1 # 100)) by field.
  rewrite E. set (p := bf * (1 # 100)).
  assert (Hp : 0 <= p <= 1) by (unfold p; lra).
  clearbody p w. split; split; nra.
Qed.

Lemma derive_masses_in_range_witness :
  exists lm fm,
    lean_mass_lb lean_last = Some lm /\ fat_mass_lb lean_last = Some fm /\
    0 <= lm <= 181.0 /\ 0 <= fm <= 181.0.
Proof.
  apply (derive_masses_in_range
           (sample_entry "2026-01-14" 181.0 (Some 19.0) None None) 19.0).
  - reflexivity.
  - split; unfold Qle; simpl; lia.
  - unfold Qle; simpl; lia.
Defined.

(** ** Cardio minutes as a float *)

Lemma int_above (x : Q) (t : Z) :
  (0 <= t)%Z -> ((t < Py.int x)%Z <-> inject_Z (t + 1) <= x).
Proof.
  intros Ht. destruct x as [n d]. unfold Py.int, Qle. simpl.
  rewrite Z.mul_1_r.
  assert (Hd : (0 < Z.pos d)%Z) by lia.
  set (p := Z.pos d) in *. clearbody p.
  destruct (Z.le_gt_cases 0 n) as [Hn|Hn].
  - rewrite Z.quot_div_nonneg by lia.
    pose proof (Z.mul_div_le n p Hd) as Hlo.
    pose proof (Z.mul_succ_div_gt n p Hd) as Hhi.
    set (q := (n / p)%Z) in *. clearbody q.
    split; intros H; nia.
  - assert (Hq : (n ÷ p <= 0)%Z).
    { apply Z.quot_le_upper_bound; lia. }
    split; intros H; [lia|nia].
Qed.

(** X25. Given a float, [cardio_fuel_note] compares the minutes after
    truncating them: with a threshold that is not negative there is an
    advisory exactly from threshold + 1 minutes on, so 45.9 minutes at
    threshold 45 give none. *)
Theorem cardio_fuel_note_truncates (x : Q) (b : Baseline) :
  (0 <= threshold_min (cardio_fuel b))%Z ->
  (cardio_fuel_note (Some x) b <> None <->
   inject_Z (threshold_min (cardio_fuel b) + 1) <= x).
Proof.
  intros Ht. rewrite <- int_above by exact Ht.
  apply cardio_fuel_note_some_iff.
Qed.

Lemma cardio_fuel_note_truncates_witness :
  ~ cardio_fuel_note (Some 45.9) BASELINE <> None.
Proof.
  intros H.
  apply (cardio_fuel_note_truncates 45.9 BASELINE) in H; [|simpl; lia].
  revert H. unfold Qle; simpl. lia.
Defined.



(** ** The displayed ratio *)

(** X27. The ratio [report] displays is the ratio itself while that lies in
    [-1, 2], and the nearer bound otherwise. *)
Theorem report_display_ratio (entries : list DailyEntry) (b : Baseline)
  (loc : ReportLocals) (r : Q) :
  report entries b = Ok (Some loc) ->
  r_ratio loc = Some r ->
  exists d,
    r_ratio_disp loc = Some d /\
    (-1.0 <= r <= 2.0 -> d == r) /\
    (2.0 < r -> d == 2.0) /\
    (r < -1.0 -> d == -1.0).
Proof.
  unfold report.
  destruct (List.length (df_entries entries) <? 7)%nat; [discriminate|].
  destruct (weekly_delta_7day_avg _) as [wk|]; [|discriminate].
  destruct (propose_adjustment _ b) as [plan|k]; simpl; [|discriminate].
  intros E. inversion E; subst loc; clear E. cbn [r_ratio r_ratio_disp].
  intros ->. eexists. split; [reflexivity|].
  unfold Py.max, Py.min.
  destruct (Py.ltb r 2.0) eqn:?; py_case; py_cmp; repeat split; intros;
    repeat match goal with H : _ /\ _ |- _ => destruct H end; lra.
Qed.

Lemma report_display_ratio_witness :
  exists loc d,
    report lean_log BASELINE = Ok (Some loc) /\
    r_ratio_disp loc = Some d /\ d == 2.0.
Proof.
  destruct (report lean_log BASELINE) as [[loc|]|k] eqn:E.
  - destruct (r_ratio loc) as [r|] eqn:Er.
    + destruct (report_display_ratio lean_log BASELINE loc r E Er)
        as (d & Hd & _ & Hhi & _).
      exists loc, d. split; [reflexivity|]. split; [exact Hd|].
      apply Hhi. vm_compute in E. inversion E; subst loc.
      vm_compute in Er. inversion Er; subst r. reflexivity.
    + vm_compute in E. inversion E; subst loc. vm_compute in Er. discriminate.
  - vm_compute in E. discriminate.
  - vm_compute in E. discriminate.
Defined.
